(** * normcap: the per-screen overlay window (normcap/gui/base_window.py)

    A shallow embedding of [BaseWindow]: its geometry utilities, its
    input-event handlers and its platform dispatch, with the properties of
    the selection logic proved over them.

    Python integers are unbounded, so every coordinate is a [Z].  A method
    of [BaseWindow] is a computation over the window's attributes that
    also appends to an ordered trace of what it does to the outside
    (signals emitted on [main_window.com], calls into Qt, log lines) and
    that may stop with a Python exception; attributes written before the
    exception stay written. *)

From Stdlib Require Import ZArith List String Bool Lia.
Import ListNotations.

Local Open Scope Z_scope.

(** ** Data model (normcap.models, as base_window.py uses it) *)

(** [Rect]: the four integer edges the window reads and writes. *)
Record Rect : Set := mkRect {
  top : Z;
  left : Z;
  bottom : Z;
  right : Z
}.

Definition set_top (v : Z) (r : Rect) : Rect :=
  mkRect v (left r) (bottom r) (right r).
Definition set_left (v : Z) (r : Rect) : Rect :=
  mkRect (top r) v (bottom r) (right r).
Definition set_bottom (v : Z) (r : Rect) : Rect :=
  mkRect (top r) (left r) v (right r).
Definition set_right (v : Z) (r : Rect) : Rect :=
  mkRect (top r) (left r) (bottom r) v.

(** Modelled from the spec: the geometry of a screen, declared in
    normcap.models and absent here; "a geometry rectangle (top, left,
    width, height)".  These are the four attributes base_window.py reads
    from [screen.geometry]. *)
Module Geometry.
Record t : Set := mk { left : Z; top : Z; width : Z; height : Z }.
End Geometry.

(** Modelled from the spec: [ScreenInfo] of normcap.models, "an
    identifying index and a geometry rectangle". *)
Record ScreenInfo : Set := mkScreenInfo {
  index : Z;
  geometry : Geometry.t
}.

(** Modelled from the spec: [Platform] of normcap.models, "the OS
    (Linux/macOS/Windows)"; [OTHER_PLATFORM] stands for any value that
    compares equal to none of the three. *)
Inductive Platform : Set :=
| LINUX
| MACOS
| WINDOWS
| OTHER_PLATFORM (name : string).

(** Modelled from the spec: [DisplayManager] of normcap.models, "on
    Linux, the display server (X11-like vs Wayland)". *)
Inductive DisplayManager : Set :=
| WAYLAND
| X11
| OTHER_DISPLAY_MANAGER.

(** Modelled from the spec: [CaptureMode] of normcap.models, "enumeration
    {RAW, PARSE}"; [OTHER_MODE] stands for any object that is neither
    member, which the code's [is] tests let through. *)
Inductive CaptureMode : Set :=
| RAW
| PARSE
| OTHER_MODE (tag : nat).

Record SystemInfo : Set := mkSystemInfo {
  platform : Platform;
  display_manager : DisplayManager;
  screens : list ScreenInfo
}.

Definition Platform_eqb (a b : Platform) : bool :=
  match a, b with
  | LINUX, LINUX | MACOS, MACOS | WINDOWS, WINDOWS => true
  | OTHER_PLATFORM x, OTHER_PLATFORM y => String.eqb x y
  | _, _ => false
  end.

Definition DisplayManager_eqb (a b : DisplayManager) : bool :=
  match a, b with
  | WAYLAND, WAYLAND | X11, X11
  | OTHER_DISPLAY_MANAGER, OTHER_DISPLAY_MANAGER => true
  | _, _ => false
  end.

(** [CaptureMode] members are compared with [is]. *)
Definition CaptureMode_is (a b : CaptureMode) : bool :=
  match a, b with
  | RAW, RAW | PARSE, PARSE => true
  | OTHER_MODE x, OTHER_MODE y => Nat.eqb x y
  | _, _ => false
  end.

(** Python's [l[i]]: a negative index counts from the end, and an index
    outside [-len l, len l) raises IndexError ([None] here). *)
Definition py_getitem {A : Type} (l : list A) (i : Z) : option A :=
  let n := Z.of_nat (List.length l) in
  if (0 <=? i) && (i <? n) then nth_error l (Z.to_nat i)
  else if (- n <=? i) && (i <? 0) then nth_error l (Z.to_nat (n + i))
  else None.

(** ** What a handler does to the outside *)

(** The constants of [QtCore.Qt] the window uses, with Qt 5's values. *)
Module Qt.
Definition Key_Escape : Z := 0x01000000.

Inductive MouseButton : Set :=
| LeftButton | RightButton | MiddleButton | NoButton.

Definition MouseButton_eqb (a b : MouseButton) : bool :=
  match a, b with
  | LeftButton, LeftButton | RightButton, RightButton
  | MiddleButton, MiddleButton | NoButton, NoButton => true
  | _, _ => false
  end.

(** [QEvent.Type.ActivationChange] *)
Definition ActivationChange : Z := 99.

Definition FramelessWindowHint : Z := 0x00000800.
Definition BypassWindowManagerHint : Z := 0x00000400.
Definition WindowStaysOnTopHint : Z := 0x00040000.
Definition CustomizeWindowHint : Z := 0x02000000.
Definition NoDropShadowWindowHint : Z := 0x40000000.

Inductive WidgetAttribute : Set := WA_TranslucentBackground.
Inductive FocusPolicy : Set := StrongFocus.
Inductive WindowState : Set := WindowActive.
Inductive PenStyle : Set := DashLine.
Inductive CursorShape : Set := CrossCursor.

(** [event.pos()] *)
Record QPoint : Set := mkQPoint { x : Z; y : Z }.

(** The central frame built by [_add_central_widget], as the values
    its setters receive. *)
Record Frame : Set := mkFrame {
  objectName : string;
  enabled : bool;
  autoFillBackground : bool;
  border_color : string;
  lineWidth : Z;
  cursor : CursorShape
}.

(** One call on the window (or on the painter opened on it). *)
Inductive call : Set :=
| setObjectName (screen_idx : Z)
| setWindowTitle (title : string)
| setWindowIcon (icon : string)
| setAnimated (on : bool)
| setEnabled (on : bool)
| setCentralWidget (frame : Frame)
| setWindowFlags (flags : Z)
| setAttribute (attr : WidgetAttribute) (on : bool)
| setStyleSheet (sheet : string)
| setFocusPolicy (policy : FocusPolicy)
| setWindowState (state : WindowState)
| move (x y : Z)
| setMinimumSize (w h : Z)
| setGeometry (x y w h : Z)
| show
| showFullScreen
| setFocus
| update
| setPen (color : string) (width : Z) (style : PenStyle)
| drawRect (geometry : Z * Z * Z * Z)
| setFont (pixel_size : Z)
| drawText (x y : Z) (text : string)
| painter_end
| super_changeEvent (event_type : Z).
End Qt.

(** The signals of [main_window.com]. *)
Inductive Signal : Set :=
| on_quit_or_hide (reason : string)
| on_set_cursor_wait
| on_minimize_windows
| on_region_selected (capture_rect : Rect) (screen_idx : Z)
| on_window_positioned.

(** The lines handed to [logger.debug] (and the one [print]). *)
Inductive LogLine : Set :=
| creating_window (screen_idx : Z)
| setting_fullscreen (screen_idx : Z)
| positioning_window (screen_idx : Z)
| moving_window (screen_idx : Z) (g : Geometry.t)
| printed_event_type (event_type : Z).

Inductive Effect : Set :=
| Emit (s : Signal)
| Call (c : Qt.call)
| Log (l : LogLine)
| move_active_window_to_position_on_gnome (g : Geometry.t).

Inductive Exception : Set :=
| IndexError
| NotImplementedError (p : Platform).

(** ** The window *)

(** The attributes of [BaseWindow] the handlers read or write.
    [main_window] is the window itself or its parent: the handlers reach
    through it only for [com], whose signals are the [Emit] effects, and
    for [capture.mode], which they are handed in [World] below.
    [qt_primary_color] and [mode_indicator_font] are fixed at
    construction from [primary_color] and the pixel size 24. *)
Record BaseWindow : Set := mkBaseWindow {
  system_info : SystemInfo;
  screen_idx : Z;
  primary_color : string;
  selection_rect : Rect;
  is_positioned : bool;
  pen_width : Z;
  is_selecting : bool;
  mode_indicator : string
}.

Definition set_selection_rect (r : Rect) (w : BaseWindow) : BaseWindow :=
  mkBaseWindow (system_info w) (screen_idx w) (primary_color w) r
    (is_positioned w) (pen_width w) (is_selecting w) (mode_indicator w).
Definition set_is_positioned (b : bool) (w : BaseWindow) : BaseWindow :=
  mkBaseWindow (system_info w) (screen_idx w) (primary_color w)
    (selection_rect w) b (pen_width w) (is_selecting w) (mode_indicator w).
Definition set_is_selecting (b : bool) (w : BaseWindow) : BaseWindow :=
  mkBaseWindow (system_info w) (screen_idx w) (primary_color w)
    (selection_rect w) (is_positioned w) (pen_width w) b (mode_indicator w).
Definition set_mode_indicator (s : string) (w : BaseWindow) : BaseWindow :=
  mkBaseWindow (system_info w) (screen_idx w) (primary_color w)
    (selection_rect w) (is_positioned w) (pen_width w) (is_selecting w) s.

(** ** Methods as computations *)

Inductive outcome (A : Type) : Type :=
| Returned (a : A)
| Raised (e : Exception).
Arguments Returned {A} a.
Arguments Raised {A} e.

(** A method body: from the window as it is, to how it ended, the window
    as it was left, and what was done on the way, in order. *)
Definition M (A : Type) : Type :=
  BaseWindow -> outcome A * BaseWindow * list Effect.

Definition ret {A : Type} (a : A) : M A := fun w => (Returned a, w, []).

Definition bind {A B : Type} (m : M A) (k : A -> M B) : M B :=
  fun w =>
    match m w with
    | (Returned a, w1, t1) =>
        match k a w1 with
        | (o, w2, t2) => (o, w2, t1 ++ t2)
        end
    | (Raised e, w1, t1) => (Raised e, w1, t1)
    end.

Definition raise {A : Type} (e : Exception) : M A :=
  fun w => (Raised e, w, []).
Definition self {A : Type} (f : BaseWindow -> A) : M A :=
  fun w => (Returned (f w), w, []).
Definition assign (f : BaseWindow -> BaseWindow) : M unit :=
  fun w => (Returned tt, f w, []).
Definition perform (e : Effect) : M unit :=
  fun w => (Returned tt, w, [e]).
Definition getitem {A : Type} (l : list A) (i : Z) : M A :=
  match py_getitem l i with
  | Some a => ret a
  | None => raise IndexError
  end.

Declare Scope method_scope.
Delimit Scope method_scope with method.
Notation "x <- m ;; k" := (bind m (fun x => k))
  (at level 61, m at next level, right associativity) : method_scope.
Notation "m ;; k" := (bind m (fun _ => k))
  (at level 61, right associativity) : method_scope.
Local Open Scope method_scope.

Definition outcome_of {A : Type} (r : outcome A * BaseWindow * list Effect)
  : outcome A := fst (fst r).
Definition window_of {A : Type} (r : outcome A * BaseWindow * list Effect)
  : BaseWindow := snd (fst r).
Definition trace_of {A : Type} (r : outcome A * BaseWindow * list Effect)
  : list Effect := snd r.

(** ** Utility *)

(** [_to_global_rect]: the argument is updated in place and returned; the
    caller passes a private copy, so the update is the returned value. *)
Definition _to_global_rect (rect : Rect) : M Rect :=
  sys <- self system_info ;;
  idx <- self screen_idx ;;
  screen <- getitem (screens sys) idx ;;
  let offset_x := Geometry.left (geometry screen) in
  let offset_y := Geometry.top (geometry screen) in
  let rect :=
    if negb (offset_x =? 0)
    then set_right (right rect + offset_x) (set_left (left rect + offset_x) rect)
    else rect in
  let rect :=
    if negb (offset_y =? 0)
    then set_bottom (bottom rect + offset_y) (set_top (top rect + offset_y) rect)
    else rect in
  pw <- self pen_width ;;
  let rect := set_left (left rect + pw) rect in
  let rect := set_top (top rect + pw) rect in
  let rect := set_right (right rect - pw) rect in
  let rect := set_bottom (bottom rect - pw) rect in
  ret rect.

(** [_sanatize_rect] (a static method: it touches no attribute). *)
Definition _sanatize_rect (rect : Rect) : Rect :=
  let margin_correction := 4 in
  let rect :=
    if top rect >? bottom rect then
      let bottom' := top rect - margin_correction in
      let top' := bottom rect + margin_correction in
      set_bottom bottom' (set_top top' rect)
    else rect in
  let rect :=
    if left rect >? right rect then
      let left' := right rect + margin_correction in
      let right' := left rect - margin_correction in
      set_left left' (set_right right' rect)
    else rect in
  rect.

Section Window.

(** [Rect()], the rectangle the constructor of normcap.models makes when
    called without arguments, and the [geometry] property of a [Rect];
    both are declared outside base_window.py. *)
Variable Rect_new : Rect.
Variable Rect_geometry : Rect -> Z * Z * Z * Z.

(** What a handler reads from outside the window while it runs:
    [main_window.capture.mode] and Qt's [isActiveWindow()]. *)
Record World : Set := mkWorld {
  capture_mode : CaptureMode;
  isActiveWindow : bool
}.

Definition _get_mode_indicator_char (env : World) : M string :=
  if CaptureMode_is (capture_mode env) RAW then ret "☰"%string
  else if CaptureMode_is (capture_mode env) PARSE then ret "★"%string
  else ret EmptyString.

(** ** Events *)

Definition paintEvent : M unit :=
  selecting <- self is_selecting ;;
  if negb selecting then ret tt
  else
    color <- self primary_color ;;
    pw <- self pen_width ;;
    perform (Call (Qt.setPen color pw Qt.DashLine)) ;;
    rect <- self selection_rect ;;
    perform (Call (Qt.drawRect (Rect_geometry rect))) ;;
    perform (Call (Qt.setFont 24)) ;;
    rect <- self selection_rect ;;
    indicator <- self mode_indicator ;;
    perform (Call (Qt.drawText (Z.max (right rect) (left rect) - 18)
                               (Z.min (bottom rect) (top rect) - 8)
                               indicator)) ;;
    perform (Call Qt.painter_end).

Definition keyPressEvent (key : Z) : M unit :=
  if key =? Qt.Key_Escape then
    selecting <- self is_selecting ;;
    if selecting then
      assign (set_is_selecting false) ;;
      perform (Call Qt.update)
    else
      perform (Emit (on_quit_or_hide "esc button pressed"%string))
  else ret tt.

Definition mousePressEvent (env : World) (button : Qt.MouseButton)
    (pos : Qt.QPoint) : M unit :=
  if Qt.MouseButton_eqb button Qt.LeftButton then
    assign (set_is_selecting true) ;;
    char <- _get_mode_indicator_char env ;;
    assign (set_mode_indicator char) ;;
    assign (fun w => set_selection_rect (set_top (Qt.y pos) (selection_rect w)) w) ;;
    assign (fun w => set_selection_rect (set_left (Qt.x pos) (selection_rect w)) w) ;;
    assign (fun w => set_selection_rect (set_bottom (Qt.y pos) (selection_rect w)) w) ;;
    assign (fun w => set_selection_rect (set_right (Qt.x pos) (selection_rect w)) w) ;;
    perform (Call Qt.update)
  else ret tt.

Definition mouseMoveEvent (pos : Qt.QPoint) : M unit :=
  assign (fun w => set_selection_rect (set_bottom (Qt.y pos) (selection_rect w)) w) ;;
  assign (fun w => set_selection_rect (set_right (Qt.x pos) (selection_rect w)) w) ;;
  perform (Call Qt.update).

Definition mouseReleaseEvent (button : Qt.MouseButton) (pos : Qt.QPoint)
    : M unit :=
  selecting <- self is_selecting ;;
  if Qt.MouseButton_eqb button Qt.LeftButton && selecting then
    assign (fun w => set_selection_rect (set_bottom (Qt.y pos) (selection_rect w)) w) ;;
    assign (fun w => set_selection_rect (set_right (Qt.x pos) (selection_rect w)) w) ;;
    assign (set_is_selecting false) ;;
    perform (Emit on_set_cursor_wait) ;;
    perform (Emit on_minimize_windows) ;;
    capture_rect <- self selection_rect ;;
    capture_rect <- _to_global_rect capture_rect ;;
    let capture_rect := _sanatize_rect capture_rect in
    idx <- self screen_idx ;;
    perform (Emit (on_region_selected capture_rect idx)) ;;
    assign (set_selection_rect Rect_new) ;;
    perform (Call Qt.update)
  else ret tt.

Definition _position_windows_on_wayland : M unit :=
  perform (Call Qt.setFocus) ;;
  sys <- self system_info ;;
  idx <- self screen_idx ;;
  screen <- getitem (screens sys) idx ;;
  let screen_geometry := geometry screen in
  perform (Log (moving_window idx screen_geometry)) ;;
  perform (move_active_window_to_position_on_gnome screen_geometry) ;;
  assign (set_is_positioned true).

Definition changeEvent (env : World) (event_type : Z) : M unit :=
  perform (Log (printed_event_type event_type)) ;;
  sys <- self system_info ;;
  positioned <- self is_positioned ;;
  (if (event_type =? Qt.ActivationChange)
      && DisplayManager_eqb (display_manager sys) WAYLAND
      && isActiveWindow env
      && negb positioned
   then
     idx <- self screen_idx ;;
     perform (Log (positioning_window idx)) ;;
     _position_windows_on_wayland ;;
     perform (Emit on_window_positioned)
   else ret tt) ;;
  perform (Call (Qt.super_changeEvent event_type)).

(** ** Adjust UI *)

Definition _set_fullscreen_linux_wayland : M unit :=
  perform (Call (Qt.setWindowFlags
    (Z.lor (Z.lor Qt.FramelessWindowHint Qt.BypassWindowManagerHint)
           Qt.WindowStaysOnTopHint))) ;;
  perform (Call (Qt.setAttribute Qt.WA_TranslucentBackground true)) ;;
  perform (Call (Qt.setStyleSheet "background-color:transparent"%string)) ;;
  perform (Call (Qt.setFocusPolicy Qt.StrongFocus)) ;;
  perform (Call (Qt.setWindowState Qt.WindowActive)) ;;
  sys <- self system_info ;;
  idx <- self screen_idx ;;
  screen <- getitem (screens sys) idx ;;
  let screen_geometry := geometry screen in
  perform (Call (Qt.move (Geometry.left screen_geometry)
                         (Geometry.top screen_geometry))) ;;
  perform (Call (Qt.setMinimumSize (Geometry.width screen_geometry)
                                   (Geometry.height screen_geometry))) ;;
  perform (Call Qt.show).

Definition _set_fullscreen_linux_old : M unit :=
  perform (Call (Qt.setAttribute Qt.WA_TranslucentBackground true)) ;;
  perform (Call (Qt.setWindowFlags
    (Z.lor (Z.lor Qt.FramelessWindowHint Qt.CustomizeWindowHint)
           Qt.WindowStaysOnTopHint))) ;;
  perform (Call (Qt.setStyleSheet "background-color:transparent"%string)) ;;
  sys <- self system_info ;;
  idx <- self screen_idx ;;
  screen <- getitem (screens sys) idx ;;
  let screen_geometry := geometry screen in
  perform (Call (Qt.move (Geometry.left screen_geometry)
                         (Geometry.top screen_geometry))) ;;
  perform (Call Qt.showFullScreen).

Definition _set_fullscreen_macos : M unit :=
  perform (Call (Qt.setWindowFlags
    (Z.lor (Z.lor (Z.lor Qt.FramelessWindowHint Qt.CustomizeWindowHint)
                  Qt.WindowStaysOnTopHint)
           Qt.NoDropShadowWindowHint))) ;;
  perform (Call (Qt.setAttribute Qt.WA_TranslucentBackground true)) ;;
  perform (Call (Qt.setStyleSheet
    "background-color:rgba(128,128,128,0.03)"%string)) ;;
  perform (Call (Qt.setFocusPolicy Qt.StrongFocus)) ;;
  sys <- self system_info ;;
  idx <- self screen_idx ;;
  screen <- getitem (screens sys) idx ;;
  let screen_geometry := geometry screen in
  perform (Call (Qt.setGeometry (Geometry.left screen_geometry)
                                (Geometry.top screen_geometry)
                                (Geometry.width screen_geometry)
                                (Geometry.height screen_geometry))).

Definition _set_fullscreen_windows : M unit :=
  perform (Call (Qt.setWindowFlags
    (Z.lor (Z.lor Qt.FramelessWindowHint Qt.CustomizeWindowHint)
           Qt.WindowStaysOnTopHint))) ;;
  perform (Call (Qt.setAttribute Qt.WA_TranslucentBackground true)) ;;
  perform (Call (Qt.setStyleSheet "background-color:rgba(0,0,0,0.01)"%string)) ;;
  sys <- self system_info ;;
  idx <- self screen_idx ;;
  screen <- getitem (screens sys) idx ;;
  let screen_geometry := geometry screen in
  perform (Call (Qt.move (Geometry.left screen_geometry)
                         (Geometry.top screen_geometry))) ;;
  perform (Call Qt.showFullScreen).

Definition set_fullscreen : M unit :=
  idx <- self screen_idx ;;
  perform (Log (setting_fullscreen idx)) ;;
  sys <- self system_info ;;
  if Platform_eqb (platform sys) LINUX then
    if DisplayManager_eqb (display_manager sys) WAYLAND then
      _set_fullscreen_linux_wayland
    else
      _set_fullscreen_linux_wayland
  else if Platform_eqb (platform sys) MACOS then
    _set_fullscreen_macos
  else if Platform_eqb (platform sys) WINDOWS then
    _set_fullscreen_windows
  else
    raise (NotImplementedError (platform sys)).

(** ** Construction *)

Definition _add_central_widget : M unit :=
  color <- self primary_color ;;
  perform (Call (Qt.setCentralWidget
    (Qt.mkFrame "central_widget"%string true true color 0 Qt.CrossCursor))).

(** [__init__]: the attributes get the values the constructor assigns
    (none of them is read before it is assigned), then the calls run in
    the order of the source.  When the outcome is [Raised], no window
    comes into being. *)
Definition __init__ (system_info : SystemInfo) (screen_idx : Z)
    (color : string) : outcome unit * BaseWindow * list Effect :=
  (perform (Call (Qt.setObjectName screen_idx)) ;;
   perform (Call (Qt.setWindowTitle "NormCap"%string)) ;;
   perform (Call (Qt.setWindowIcon "normcap.png"%string)) ;;
   perform (Call (Qt.setAnimated false)) ;;
   perform (Call (Qt.setEnabled true)) ;;
   perform (Log (creating_window screen_idx)) ;;
   _add_central_widget ;;
   set_fullscreen)
  (mkBaseWindow system_info screen_idx color Rect_new false 2 false "?"%string).

(** ** The event loop *)

Inductive Event : Set :=
| Paint
| KeyPress (key : Z)
| MousePress (button : Qt.MouseButton) (pos : Qt.QPoint)
| MouseMove (pos : Qt.QPoint)
| MouseRelease (button : Qt.MouseButton) (pos : Qt.QPoint)
| Change (event_type : Z).

Definition dispatch (env : World) (ev : Event) : M unit :=
  match ev with
  | Paint => paintEvent
  | KeyPress key => keyPressEvent key
  | MousePress button pos => mousePressEvent env button pos
  | MouseMove pos => mouseMoveEvent pos
  | MouseRelease button pos => mouseReleaseEvent button pos
  | Change event_type => changeEvent env event_type
  end.

(** The window after one event; a handler that raises leaves the window
    as it was at the raise, and the loop goes on. *)
Definition step (w : BaseWindow) (e : World * Event) : BaseWindow :=
  window_of (dispatch (fst e) (snd e) w).

Definition run (w : BaseWindow) (events : list (World * Event)) : BaseWindow :=
  fold_left step events w.

(** The signals in a trace, in order. *)
Definition signals_of (t : list Effect) : list Signal :=
  flat_map (fun eff => match eff with Emit s => [s] | _ => [] end) t.

(** Every signal emitted while the events are handled, in order. *)
Fixpoint emitted (w : BaseWindow) (events : list (World * Event))
    : list Signal :=
  match events with
  | [] => []
  | e :: rest =>
      let r := dispatch (fst e) (snd e) w in
      signals_of (trace_of r) ++ emitted (window_of r) rest
  end.

(** Selections begun and selections ended (completed or aborted) while
    the events are handled: the changes of [is_selecting]. *)
Fixpoint begun (w : BaseWindow) (events : list (World * Event)) : nat :=
  match events with
  | [] => O
  | e :: rest =>
      ((if negb (is_selecting w) && is_selecting (step w e) then 1 else 0)
       + begun (step w e) rest)%nat
  end.

Fixpoint ended (w : BaseWindow) (events : list (World * Event)) : nat :=
  match events with
  | [] => O
  | e :: rest =>
      ((if is_selecting w && negb (is_selecting (step w e)) then 1 else 0)
       + ended (step w e) rest)%nat
  end.

(** The calls that place or show the window. *)
Definition is_placement (eff : Effect) : bool :=
  match eff with
  | Call (Qt.setWindowFlags _) | Call (Qt.setAttribute _ _)
  | Call (Qt.setStyleSheet _) | Call (Qt.setFocusPolicy _)
  | Call (Qt.setWindowState _) | Call (Qt.move _ _)
  | Call (Qt.setMinimumSize _ _) | Call (Qt.setGeometry _ _ _ _)
  | Call Qt.show | Call Qt.showFullScreen => true
  | _ => false
  end.

Definition supported (p : Platform) : bool :=
  match p with
  | LINUX | MACOS | WINDOWS => true
  | OTHER_PLATFORM _ => false
  end.

(** A screen index the window can look up. *)
Definition valid_index (w : BaseWindow) : Prop :=
  exists screen,
    py_getitem (screens (system_info w)) (screen_idx w) = Some screen.

(** The window in the middle of a completing [mouseReleaseEvent]: the
    bottom and right edges written, [is_selecting] cleared. *)
Definition released (pos : Qt.QPoint) (w : BaseWindow) : BaseWindow :=
  set_is_selecting false
    (set_selection_rect
       (set_right (Qt.x pos) (set_bottom (Qt.y pos) (selection_rect w))) w).

(** The calls [_set_fullscreen_linux_wayland] makes before it looks the
    screen up. *)
Definition linux_wayland_flags : list Effect :=
  [Call (Qt.setWindowFlags
     (Z.lor (Z.lor Qt.FramelessWindowHint Qt.BypassWindowManagerHint)
            Qt.WindowStaysOnTopHint));
   Call (Qt.setAttribute Qt.WA_TranslucentBackground true);
   Call (Qt.setStyleSheet "background-color:transparent"%string);
   Call (Qt.setFocusPolicy Qt.StrongFocus);
   Call (Qt.setWindowState Qt.WindowActive)].

(** The same window on another display manager. *)
Definition with_display_manager (dm : DisplayManager) (w : BaseWindow)
    : BaseWindow :=
  mkBaseWindow
    (mkSystemInfo (platform (system_info w)) dm (screens (system_info w)))
    (screen_idx w) (primary_color w) (selection_rect w) (is_positioned w)
    (pen_width w) (is_selecting w) (mode_indicator w).

(** Proof steps shared below: case analysis on the comparisons of edges,
    and unfolding of the method combinators. *)
Ltac by_edges :=
  repeat match goal with
         | |- context [?a >? ?b] => destruct (Z.gtb_spec a b)
         | |- context [?a =? ?b] => destruct (Z.eqb_spec a b)
         end;
  cbn in *; try lia.

Ltac unfold_method :=
  unfold bind, ret, raise, self, assign, perform, getitem,
    outcome_of, window_of, trace_of.

(** ** Concrete windows

    Two screens side by side, the second at offset (1920, 0), and windows
    on them at moments of a drag; used to run the handlers on inputs. *)
Definition two_screens (p : Platform) (dm : DisplayManager) : SystemInfo :=
  mkSystemInfo p dm
    [mkScreenInfo 0 (Geometry.mk 0 0 1920 1080);
     mkScreenInfo 1 (Geometry.mk 1920 0 1920 1080)].

(** The window of the second screen, a drag begun at (100, 100). *)
Definition dragging_window : BaseWindow :=
  mkBaseWindow (two_screens LINUX X11) 1 "#FF2E88"%string
    (mkRect 100 100 100 100) false 2 true "☰"%string.

(** The window of the first screen, idle. *)
Definition idle_window : BaseWindow :=
  mkBaseWindow (two_screens LINUX WAYLAND) 0 "#FF2E88"%string
    (mkRect 0 0 0 0) false 2 false "?"%string.

(** A window whose screen index is out of range, a drag begun. *)
Definition lost_window : BaseWindow :=
  mkBaseWindow (two_screens LINUX WAYLAND) 2 "#FF2E88"%string
    (mkRect 100 100 100 100) false 2 true "☰"%string.

(** A Linux window whose system has no screen at all. *)
Definition screenless_window : BaseWindow :=
  mkBaseWindow (mkSystemInfo LINUX X11 []) 0 "#FF2E88"%string
    (mkRect 0 0 0 0) false 2 false "?"%string.

(** A window on a platform the dispatch does not know. *)
Definition bsd_window : BaseWindow :=
  mkBaseWindow (two_screens (OTHER_PLATFORM "freebsd"%string) X11) 0
    "#FF2E88"%string (mkRect 0 0 0 0) false 2 false "?"%string.

Definition raw_mode : World := mkWorld RAW true.

(** Values to run the handlers with where base_window.py leaves them to
    normcap.models: [Rect()] with every edge zero, and the geometry of a
    rectangle as left, top, width, height. *)
Definition zero_rect : Rect := mkRect 0 0 0 0.
Definition edges_geometry (r : Rect) : Z * Z * Z * Z :=
  (left r, top r, right r - left r, bottom r - top r).

Definition left_press (px py : Z) : World * Event :=
  (raw_mode, MousePress Qt.LeftButton (Qt.mkQPoint px py)).
Definition left_release (px py : Z) : World * Event :=
  (raw_mode, MouseRelease Qt.LeftButton (Qt.mkQPoint px py)).
Definition move_to (px py : Z) : World * Event :=
  (raw_mode, MouseMove (Qt.mkQPoint px py)).
Definition escape : World * Event :=
  (raw_mode, KeyPress Qt.Key_Escape).

(** ** Observations on events and traces *)

Definition is_move (e : World * Event) : bool :=
  match snd e with
  | MouseMove _ => true
  | _ => false
  end.

Definition is_left_press (e : World * Event) : bool :=
  match snd e with
  | MousePress Qt.LeftButton _ => true
  | _ => false
  end.

(** Everything done while the events are handled, in order. *)
Fixpoint trace_along (w : BaseWindow) (events : list (World * Event))
    : list Effect :=
  match events with
  | [] => []
  | e :: rest =>
      let r := dispatch (fst e) (snd e) w in
      trace_of r ++ trace_along (window_of r) rest
  end.

Definition is_region_selected (s : Signal) : bool :=
  match s with
  | on_region_selected _ _ => true
  | _ => false
  end.

Definition is_window_positioned (s : Signal) : bool :=
  match s with
  | on_window_positioned => true
  | _ => false
  end.

Definition count_signals (f : Signal -> bool) (l : list Signal) : nat :=
  List.length (filter f l).

(** The texts a trace draws, each with its anchor. *)
Definition texts_drawn (t : list Effect) : list (Z * Z * string) :=
  flat_map (fun eff => match eff with
                       | Call (Qt.drawText px py text) => [(px, py, text)]
                       | _ => []
                       end) t.

(** The calls that put the window on the screen, and those that show it. *)
Definition is_positioning (eff : Effect) : bool :=
  match eff with
  | Call (Qt.move _ _) | Call (Qt.setGeometry _ _ _ _)
  | Call (Qt.setMinimumSize _ _) => true
  | _ => false
  end.

Definition is_show (eff : Effect) : bool :=
  match eff with
  | Call Qt.show | Call Qt.showFullScreen => true
  | _ => false
  end.

Definition is_gnome_move (eff : Effect) : bool :=
  match eff with
  | move_active_window_to_position_on_gnome _ => true
  | _ => false
  end.

(** The calls [_set_fullscreen_macos] and [_set_fullscreen_windows] make
    before they look the screen up. *)
Definition macos_flags : list Effect :=
  [Call (Qt.setWindowFlags
     (Z.lor (Z.lor (Z.lor Qt.FramelessWindowHint Qt.CustomizeWindowHint)
                   Qt.WindowStaysOnTopHint)
            Qt.NoDropShadowWindowHint));
   Call (Qt.setAttribute Qt.WA_TranslucentBackground true);
   Call (Qt.setStyleSheet "background-color:rgba(128,128,128,0.03)"%string);
   Call (Qt.setFocusPolicy Qt.StrongFocus)].

Definition windows_flags : list Effect :=
  [Call (Qt.setWindowFlags
     (Z.lor (Z.lor Qt.FramelessWindowHint Qt.CustomizeWindowHint)
            Qt.WindowStaysOnTopHint));
   Call (Qt.setAttribute Qt.WA_TranslucentBackground true);
   Call (Qt.setStyleSheet "background-color:rgba(0,0,0,0.01)"%string)].

Definition is_style_sheet (eff : Effect) : bool :=
  match eff with
  | Call (Qt.setStyleSheet _) => true
  | _ => false
  end.

(** A call of [setWindowFlags] whose flags hold every bit of [hint]. *)
Definition sets_flag (hint : Z) (eff : Effect) : bool :=
  match eff with
  | Call (Qt.setWindowFlags flags) => Z.land flags hint =? hint
  | _ => false
  end.

(** The window as the constructor leaves it. *)
Definition fresh_window (sys : SystemInfo) (idx : Z) (color : string)
    : BaseWindow :=
  mkBaseWindow sys idx color Rect_new false 2 false "?"%string.

(** * Properties *)

(** ** Geometry utilities *)

Lemma sanatize_rect_top (r : Rect) :
  top (_sanatize_rect r) = if top r >? bottom r then bottom r + 4 else top r.
Proof. unfold _sanatize_rect; cbn. by_edges; reflexivity. Qed.

Lemma sanatize_rect_bottom (r : Rect) :
  bottom (_sanatize_rect r) = if top r >? bottom r then top r - 4 else bottom r.
Proof. unfold _sanatize_rect; cbn. by_edges; reflexivity. Qed.

Lemma sanatize_rect_left (r : Rect) :
  left (_sanatize_rect r) = if left r >? right r then right r + 4 else left r.
Proof. unfold _sanatize_rect; cbn. by_edges; reflexivity. Qed.

Lemma sanatize_rect_right (r : Rect) :
  right (_sanatize_rect r) = if left r >? right r then left r - 4 else right r.
Proof. unfold _sanatize_rect; cbn. by_edges; reflexivity. Qed.

(** A rectangle that is already ordered comes back as it went in. *)
Lemma sanatize_rect_ordered_unchanged (r : Rect) :
  top r <= bottom r -> left r <= right r -> _sanatize_rect r = r.
Proof.
  intros Hv Hh. destruct r as [t l b rg]; cbn in *.
  unfold _sanatize_rect; cbn. by_edges. reflexivity.
Qed.

(** An inverted span of at least twice the margin correction comes back
    ordered. *)
Lemma sanatize_rect_orders_wide_spans (r : Rect) :
  (top r <= bottom r \/ bottom r + 8 <= top r) ->
  (left r <= right r \/ right r + 8 <= left r) ->
  top (_sanatize_rect r) <= bottom (_sanatize_rect r)
  /\ left (_sanatize_rect r) <= right (_sanatize_rect r).
Proof.
  intros Hv Hh.
  rewrite sanatize_rect_top, sanatize_rect_bottom,
    sanatize_rect_left, sanatize_rect_right.
  by_edges.
Qed.

(** C1, at the input where the code leaves the claim: [_sanatize_rect] is
    to return [top <= bottom] and [left <= right] for every rectangle, yet
    the rectangle with top 5 and bottom 0 (an upward drag of five units)
    comes back with top 4 and bottom 1, still inverted. *)
Theorem sanatize_rect_narrow_span_still_inverted :
  _sanatize_rect (mkRect 5 0 0 10) = mkRect 4 0 1 10
  /\ ~ (top (_sanatize_rect (mkRect 5 0 0 10))
        <= bottom (_sanatize_rect (mkRect 5 0 0 10))).
Proof. split; [reflexivity | cbn; lia]. Qed.

(** C4: the two corrections of [_sanatize_rect] do not interact.  When
    only the vertical span is inverted the left and right edges come back
    as they were, when only the horizontal span is inverted the top and
    bottom edges come back as they were, and in every case the vertical
    edges of the result are those of any rectangle with the same top and
    bottom, the horizontal edges those of any rectangle with the same left
    and right. *)
Theorem sanatize_rect_axes_independent (r r' : Rect) :
  (top r > bottom r -> left r <= right r ->
     left (_sanatize_rect r) = left r /\ right (_sanatize_rect r) = right r)
  /\ (left r > right r -> top r <= bottom r ->
     top (_sanatize_rect r) = top r /\ bottom (_sanatize_rect r) = bottom r)
  /\ (top r = top r' -> bottom r = bottom r' ->
     top (_sanatize_rect r) = top (_sanatize_rect r')
     /\ bottom (_sanatize_rect r) = bottom (_sanatize_rect r'))
  /\ (left r = left r' -> right r = right r' ->
     left (_sanatize_rect r) = left (_sanatize_rect r')
     /\ right (_sanatize_rect r) = right (_sanatize_rect r')).
Proof.
  rewrite !sanatize_rect_top, !sanatize_rect_bottom,
    !sanatize_rect_left, !sanatize_rect_right.
  repeat split; intros.
  - by_edges.
  - by_edges.
  - by_edges.
  - by_edges.
  - rewrite H, H0; reflexivity.
  - rewrite H, H0; reflexivity.
  - rewrite H, H0; reflexivity.
  - rewrite H, H0; reflexivity.
Qed.

(** [_to_global_rect] with the screen found: both offsets are added
    (adding a zero offset is skipping it) and the pen width is taken off
    every side; the window is not touched and nothing is emitted. *)
Lemma to_global_rect_found (w : BaseWindow) (rect : Rect) (screen : ScreenInfo) :
  py_getitem (screens (system_info w)) (screen_idx w) = Some screen ->
  _to_global_rect rect w =
    (Returned
       (mkRect (top rect + Geometry.top (geometry screen) + pen_width w)
               (left rect + Geometry.left (geometry screen) + pen_width w)
               (bottom rect + Geometry.top (geometry screen) - pen_width w)
               (right rect + Geometry.left (geometry screen) - pen_width w)),
     w, []).
Proof.
  intros Hscreen. unfold _to_global_rect. unfold_method. cbn.
  rewrite Hscreen. cbn.
  destruct (Z.eqb_spec (Geometry.left (geometry screen)) 0) as [Hx | Hx];
    destruct (Z.eqb_spec (Geometry.top (geometry screen)) 0) as [Hy | Hy];
    cbn; try rewrite Hx; try rewrite Hy;
    repeat rewrite Z.add_0_r; reflexivity.
Qed.

Lemma to_global_rect_not_found (w : BaseWindow) (rect : Rect) :
  py_getitem (screens (system_info w)) (screen_idx w) = None ->
  _to_global_rect rect w = (Raised IndexError, w, []).
Proof.
  intros Hscreen. unfold _to_global_rect. unfold_method. cbn.
  rewrite Hscreen. reflexivity.
Qed.

(** C3: with the window's screen at offset zero on both axes,
    [_to_global_rect] only shrinks the rectangle by the pen width 2 (left
    and top grow by 2, right and bottom drop by 2); in general it moves
    both edges of an axis by that axis's offset and then shrinks by 2 on
    all four sides. *)
Theorem to_global_rect_translates_then_shrinks
    (w : BaseWindow) (rect : Rect) (screen : ScreenInfo) :
  py_getitem (screens (system_info w)) (screen_idx w) = Some screen ->
  pen_width w = 2 ->
  let offset_x := Geometry.left (geometry screen) in
  let offset_y := Geometry.top (geometry screen) in
  _to_global_rect rect w =
    (Returned (mkRect (top rect + offset_y + 2) (left rect + offset_x + 2)
                      (bottom rect + offset_y - 2) (right rect + offset_x - 2)),
     w, [])
  /\ (offset_x = 0 -> offset_y = 0 ->
      _to_global_rect rect w =
        (Returned (mkRect (top rect + 2) (left rect + 2)
                          (bottom rect - 2) (right rect - 2)),
         w, [])).
Proof.
  intros Hscreen Hpen offset_x offset_y.
  rewrite (to_global_rect_found w rect screen Hscreen), Hpen.
  split; [reflexivity |].
  intros Hx Hy. subst offset_x offset_y. rewrite Hx, Hy.
  repeat rewrite Z.add_0_r. reflexivity.
Qed.

(** ** The handlers, run *)

Lemma set_selection_rect_twice (r r' : Rect) (w : BaseWindow) :
  set_selection_rect r (set_selection_rect r' w) = set_selection_rect r w.
Proof. reflexivity. Qed.

Lemma mouseMoveEvent_run (pos : Qt.QPoint) (w : BaseWindow) :
  mouseMoveEvent pos w =
    (Returned tt,
     set_selection_rect
       (set_right (Qt.x pos) (set_bottom (Qt.y pos) (selection_rect w))) w,
     [Call Qt.update]).
Proof. reflexivity. Qed.

Lemma mousePressEvent_left_run (env : World) (pos : Qt.QPoint) (w : BaseWindow) :
  mousePressEvent env Qt.LeftButton pos w =
    (Returned tt,
     set_selection_rect
       (mkRect (Qt.y pos) (Qt.x pos) (Qt.y pos) (Qt.x pos))
       (set_mode_indicator
          (match capture_mode env with
           | RAW => "☰"%string
           | PARSE => "★"%string
           | OTHER_MODE _ => EmptyString
           end)
          (set_is_selecting true w)),
     [Call Qt.update]).
Proof.
  unfold mousePressEvent, _get_mode_indicator_char. unfold_method. cbn.
  destruct (capture_mode env); reflexivity.
Qed.

Lemma mousePressEvent_other_run (env : World) (button : Qt.MouseButton)
    (pos : Qt.QPoint) (w : BaseWindow) :
  button <> Qt.LeftButton ->
  mousePressEvent env button pos w = (Returned tt, w, []).
Proof. destruct button; intros H; [congruence | reflexivity ..]. Qed.

Lemma keyPressEvent_escape_selecting_run (w : BaseWindow) :
  is_selecting w = true ->
  keyPressEvent Qt.Key_Escape w =
    (Returned tt, set_is_selecting false w, [Call Qt.update]).
Proof.
  intros Hsel. unfold keyPressEvent. unfold_method. cbn.
  rewrite Hsel. reflexivity.
Qed.

Lemma keyPressEvent_escape_idle_run (w : BaseWindow) :
  is_selecting w = false ->
  keyPressEvent Qt.Key_Escape w =
    (Returned tt, w, [Emit (on_quit_or_hide "esc button pressed"%string)]).
Proof.
  intros Hsel. unfold keyPressEvent. unfold_method. cbn.
  rewrite Hsel. reflexivity.
Qed.

Lemma keyPressEvent_other_run (key : Z) (w : BaseWindow) :
  key <> Qt.Key_Escape ->
  keyPressEvent key w = (Returned tt, w, []).
Proof.
  intros Hkey. unfold keyPressEvent.
  destruct (Z.eqb_spec key Qt.Key_Escape); [contradiction | reflexivity].
Qed.

Lemma mouseReleaseEvent_ignored_run (button : Qt.MouseButton)
    (pos : Qt.QPoint) (w : BaseWindow) :
  button <> Qt.LeftButton \/ is_selecting w = false ->
  mouseReleaseEvent button pos w = (Returned tt, w, []).
Proof.
  intros H. unfold mouseReleaseEvent. unfold_method. cbn.
  destruct H as [H | H].
  - destruct button; [congruence | reflexivity ..].
  - rewrite H, andb_false_r. reflexivity.
Qed.

Lemma mouseReleaseEvent_completed_run (pos : Qt.QPoint) (w : BaseWindow)
    (g : Rect) :
  is_selecting w = true ->
  _to_global_rect (selection_rect (released pos w)) (released pos w)
    = (Returned g, released pos w, []) ->
  mouseReleaseEvent Qt.LeftButton pos w =
    (Returned tt,
     set_selection_rect Rect_new (released pos w),
     [Emit on_set_cursor_wait;
      Emit on_minimize_windows;
      Emit (on_region_selected (_sanatize_rect g) (screen_idx w));
      Call Qt.update]).
Proof.
  intros Hsel Hglobal. unfold mouseReleaseEvent.
  unfold bind at 1. unfold self at 1. rewrite Hsel. cbn [andb Qt.MouseButton_eqb].
  unfold released in Hglobal. unfold_method.
  cbn -[_to_global_rect] in *.
  rewrite set_selection_rect_twice, Hglobal. reflexivity.
Qed.

Lemma mouseReleaseEvent_raised_run (pos : Qt.QPoint) (w : BaseWindow) :
  is_selecting w = true ->
  py_getitem (screens (system_info w)) (screen_idx w) = None ->
  mouseReleaseEvent Qt.LeftButton pos w =
    (Raised IndexError, released pos w,
     [Emit on_set_cursor_wait; Emit on_minimize_windows]).
Proof.
  intros Hsel Hscreen. unfold mouseReleaseEvent.
  unfold bind at 1. unfold self at 1. rewrite Hsel. cbn [andb Qt.MouseButton_eqb].
  pose proof (to_global_rect_not_found (released pos w)
                (selection_rect (released pos w)) Hscreen) as Hglobal.
  unfold released in *. unfold_method.
  cbn -[_to_global_rect] in *.
  rewrite set_selection_rect_twice, Hglobal. reflexivity.
Qed.

Lemma paintEvent_window (w : BaseWindow) :
  window_of (paintEvent w) = w /\ signals_of (trace_of (paintEvent w)) = [].
Proof.
  unfold paintEvent. unfold_method. cbn.
  destruct (is_selecting w); split; reflexivity.
Qed.

Lemma changeEvent_window (env : World) (event_type : Z) (w : BaseWindow) :
  window_of (changeEvent env event_type w) = w
  \/ window_of (changeEvent env event_type w) = set_is_positioned true w.
Proof.
  unfold changeEvent, _position_windows_on_wayland. unfold_method. cbn.
  destruct ((event_type =? Qt.ActivationChange)
            && DisplayManager_eqb (display_manager (system_info w)) WAYLAND
            && isActiveWindow env && negb (is_positioned w)); cbn.
  - destruct (py_getitem (screens (system_info w)) (screen_idx w)); cbn;
      [right | left]; reflexivity.
  - left; reflexivity.
Qed.

Lemma mouseReleaseEvent_window (button : Qt.MouseButton) (pos : Qt.QPoint)
    (w : BaseWindow) :
  window_of (mouseReleaseEvent button pos w) = w
  \/ (button = Qt.LeftButton /\ is_selecting w = true
      /\ (window_of (mouseReleaseEvent button pos w) = released pos w
          \/ window_of (mouseReleaseEvent button pos w)
             = set_selection_rect Rect_new (released pos w))).
Proof.
  destruct button;
    try (left; rewrite mouseReleaseEvent_ignored_run;
         [reflexivity | left; discriminate]).
  destruct (is_selecting w) eqn:Hsel.
  - right. repeat split.
    destruct (py_getitem (screens (system_info w)) (screen_idx w))
      as [screen |] eqn:Hscreen.
    + right. erewrite mouseReleaseEvent_completed_run; [reflexivity | exact Hsel |].
      apply to_global_rect_found. exact Hscreen.
    + left. rewrite mouseReleaseEvent_raised_run by assumption. reflexivity.
  - left. rewrite mouseReleaseEvent_ignored_run; [reflexivity | right; exact Hsel].
Qed.

(** No handler writes [system_info], [screen_idx], [primary_color] or
    [pen_width]. *)
Lemma step_frame (w : BaseWindow) (e : World * Event) :
  system_info (step w e) = system_info w
  /\ screen_idx (step w e) = screen_idx w
  /\ primary_color (step w e) = primary_color w
  /\ pen_width (step w e) = pen_width w.
Proof.
  destruct e as [env ev]. unfold step; cbn [fst snd].
  destruct ev as [| key | button pos | pos | button pos | event_type];
    cbn [dispatch].
  - rewrite (proj1 (paintEvent_window w)). auto.
  - destruct (Z.eq_dec key Qt.Key_Escape) as [-> | Hkey].
    + destruct (is_selecting w) eqn:Hsel.
      * rewrite keyPressEvent_escape_selecting_run by exact Hsel. auto.
      * rewrite keyPressEvent_escape_idle_run by exact Hsel. auto.
    + rewrite keyPressEvent_other_run by exact Hkey. auto.
  - destruct button;
      try (rewrite mousePressEvent_other_run by discriminate; auto).
    rewrite mousePressEvent_left_run. auto.
  - rewrite mouseMoveEvent_run. auto.
  - destruct (mouseReleaseEvent_window button pos w)
      as [-> | (_ & _ & [-> | ->])]; auto.
  - destruct (changeEvent_window env event_type w) as [-> | ->]; auto.
Qed.

(** [is_selecting] goes up only in a primary-button press and down only
    in a primary-button release or an Escape key press. *)
Lemma step_is_selecting (w : BaseWindow) (env : World) (ev : Event) :
  (is_selecting w = false -> is_selecting (step w (env, ev)) = true ->
     exists pos, ev = MousePress Qt.LeftButton pos)
  /\ (is_selecting w = true -> is_selecting (step w (env, ev)) = false ->
     (exists pos, ev = MouseRelease Qt.LeftButton pos)
     \/ ev = KeyPress Qt.Key_Escape).
Proof.
  unfold step; cbn [fst snd].
  destruct ev as [| key | button pos | pos | button pos | event_type];
    cbn [dispatch].
  - rewrite (proj1 (paintEvent_window w)). split; congruence.
  - destruct (Z.eq_dec key Qt.Key_Escape) as [-> | Hkey].
    + split; [| auto]. intros Hidle.
      rewrite keyPressEvent_escape_idle_run by exact Hidle.
      unfold window_of; cbn. congruence.
    + rewrite keyPressEvent_other_run by exact Hkey.
      unfold window_of; cbn. split; congruence.
  - destruct button;
      try (rewrite mousePressEvent_other_run by discriminate;
           unfold window_of; cbn; split; congruence).
    rewrite mousePressEvent_left_run. unfold window_of; cbn.
    split; [eauto | congruence].
  - rewrite mouseMoveEvent_run. unfold window_of; cbn. split; congruence.
  - destruct (mouseReleaseEvent_window button pos w)
      as [-> | (-> & Hsel & _)].
    + split; congruence.
    + split; [congruence | eauto].
  - destruct (changeEvent_window env event_type w) as [-> | ->];
      cbn; split; congruence.
Qed.

(** ** Fullscreen placement, run *)

Lemma set_fullscreen_linux_wayland_run (w : BaseWindow) :
  _set_fullscreen_linux_wayland w =
    match py_getitem (screens (system_info w)) (screen_idx w) with
    | Some screen =>
        (Returned tt, w,
         linux_wayland_flags ++
         [Call (Qt.move (Geometry.left (geometry screen))
                        (Geometry.top (geometry screen)));
          Call (Qt.setMinimumSize (Geometry.width (geometry screen))
                                  (Geometry.height (geometry screen)));
          Call Qt.show])
    | None => (Raised IndexError, w, linux_wayland_flags)
    end.
Proof.
  unfold _set_fullscreen_linux_wayland. unfold_method. cbn.
  destruct (py_getitem (screens (system_info w)) (screen_idx w)); reflexivity.
Qed.

Lemma set_fullscreen_macos_outcome (w : BaseWindow) :
  window_of (_set_fullscreen_macos w) = w
  /\ outcome_of (_set_fullscreen_macos w) =
     match py_getitem (screens (system_info w)) (screen_idx w) with
     | Some _ => Returned tt
     | None => Raised IndexError
     end.
Proof.
  unfold _set_fullscreen_macos. unfold_method. cbn.
  destruct (py_getitem (screens (system_info w)) (screen_idx w));
    split; reflexivity.
Qed.

Lemma set_fullscreen_windows_outcome (w : BaseWindow) :
  window_of (_set_fullscreen_windows w) = w
  /\ outcome_of (_set_fullscreen_windows w) =
     match py_getitem (screens (system_info w)) (screen_idx w) with
     | Some _ => Returned tt
     | None => Raised IndexError
     end.
Proof.
  unfold _set_fullscreen_windows. unfold_method. cbn.
  destruct (py_getitem (screens (system_info w)) (screen_idx w));
    split; reflexivity.
Qed.

(** [set_fullscreen] is its log line followed by the branch taken. *)
Lemma set_fullscreen_branch (w : BaseWindow) (branch : M unit) :
  (if Platform_eqb (platform (system_info w)) LINUX then
     if DisplayManager_eqb (display_manager (system_info w)) WAYLAND
     then _set_fullscreen_linux_wayland else _set_fullscreen_linux_wayland
   else if Platform_eqb (platform (system_info w)) MACOS
     then _set_fullscreen_macos
   else if Platform_eqb (platform (system_info w)) WINDOWS
     then _set_fullscreen_windows
   else raise (NotImplementedError (platform (system_info w)))) = branch ->
  set_fullscreen w =
    (outcome_of (branch w), window_of (branch w),
     Log (setting_fullscreen (screen_idx w)) :: trace_of (branch w)).
Proof.
  intros Hbranch. unfold set_fullscreen.
  unfold bind at 1. unfold self at 1. unfold bind at 1. unfold perform at 1.
  unfold bind at 1. unfold self at 1. rewrite Hbranch.
  unfold_method. destruct (branch w) as [[o w'] t]. reflexivity.
Qed.

Lemma set_fullscreen_outcome (w : BaseWindow) :
  window_of (set_fullscreen w) = w
  /\ outcome_of (set_fullscreen w) =
     (if supported (platform (system_info w)) then
        match py_getitem (screens (system_info w)) (screen_idx w) with
        | Some _ => Returned tt
        | None => Raised IndexError
        end
      else Raised (NotImplementedError (platform (system_info w)))).
Proof.
  rewrite (set_fullscreen_branch w _ eq_refl).
  unfold outcome_of at 1, window_of at 1. cbn [fst snd].
  destruct (platform (system_info w)) eqn:Hplatform; cbn.
  - destruct (DisplayManager_eqb (display_manager (system_info w)) WAYLAND);
      rewrite set_fullscreen_linux_wayland_run;
      destruct (py_getitem (screens (system_info w)) (screen_idx w));
      split; reflexivity.
  - apply set_fullscreen_macos_outcome.
  - apply set_fullscreen_windows_outcome.
  - split; reflexivity.
Qed.

(** ** Windows that were constructed *)

Lemma init_returned (sys : SystemInfo) (idx : Z) (color : string)
    (w : BaseWindow) (t : list Effect) :
  __init__ sys idx color = (Returned tt, w, t) ->
  w = mkBaseWindow sys idx color Rect_new false 2 false "?"%string
  /\ supported (platform sys) = true
  /\ valid_index w.
Proof.
  unfold __init__, _add_central_widget.
  set (w0 := mkBaseWindow sys idx color Rect_new false 2 false "?"%string).
  pose proof (set_fullscreen_outcome w0) as [Hwindow Houtcome].
  unfold_method. cbn -[set_fullscreen].
  unfold outcome_of, window_of in *.
  destruct (set_fullscreen w0) as [[o w'] t']. cbn in *. subst w'.
  intros Heq. injection Heq as Ho Hw Ht. subst o w.
  destruct (supported (platform sys)); [| discriminate].
  repeat split. unfold valid_index. cbn.
  destruct (py_getitem (screens sys) idx) as [screen |];
    [eauto | discriminate].
Qed.

Lemma run_frame (events : list (World * Event)) (w : BaseWindow) :
  system_info (run w events) = system_info w
  /\ screen_idx (run w events) = screen_idx w
  /\ primary_color (run w events) = primary_color w
  /\ pen_width (run w events) = pen_width w.
Proof.
  unfold run. revert w. induction events as [| e rest IH]; intros w; cbn.
  - auto.
  - destruct (IH (step w e)) as (-> & -> & -> & ->). apply step_frame.
Qed.

(** After any events, a constructed window still has pen width 2 and a
    screen index it can look up. *)
Lemma constructed_window_invariant (sys : SystemInfo) (idx : Z)
    (color : string) (w : BaseWindow) (t : list Effect)
    (events : list (World * Event)) :
  __init__ sys idx color = (Returned tt, w, t) ->
  pen_width (run w events) = 2 /\ valid_index (run w events).
Proof.
  intros Hinit. apply init_returned in Hinit as (Hw & _ & Hvalid).
  destruct (run_frame events w) as (Hsys & Hidx & _ & Hpen).
  unfold valid_index in *. rewrite Hsys, Hidx, Hpen.
  split; [subst w; reflexivity | exact Hvalid].
Qed.

(** Along any events, the selections begun exceed those ended by one
    exactly while [is_selecting] holds. *)
Lemma begun_ended_balance (events : list (World * Event)) (w : BaseWindow) :
  ((if is_selecting w then 1 else 0) + begun w events
   = ended w events + (if is_selecting (run w events) then 1 else 0))%nat.
Proof.
  unfold run. revert w.
  induction events as [| e rest IH]; intros w; cbn [begun ended fold_left].
  - lia.
  - specialize (IH (step w e)).
    destruct (is_selecting w), (is_selecting (step w e)); cbn in *; lia.
Qed.

(** * The selection state machine *)

(** C2: in a constructed window, after any events, a primary-button
    release that finds [is_selecting] true writes the bottom and right
    edges from the release point, clears [is_selecting], and emits, in
    this order, set-cursor-wait, minimize-windows and region-selected, the
    last carrying [_sanatize_rect] of [_to_global_rect] of the selection
    rectangle together with the window's screen index; it leaves
    [selection_rect] at [Rect()] and every other attribute as it was. *)
Theorem mouseReleaseEvent_completes_selection
    (sys : SystemInfo) (idx : Z) (color : string) (w0 : BaseWindow)
    (t : list Effect) (events : list (World * Event)) (pos : Qt.QPoint) :
  __init__ sys idx color = (Returned tt, w0, t) ->
  let w := run w0 events in
  is_selecting w = true ->
  selection_rect (released pos w)
    = mkRect (top (selection_rect w)) (left (selection_rect w))
             (Qt.y pos) (Qt.x pos)
  /\ is_selecting (released pos w) = false
  /\ exists g,
      _to_global_rect (selection_rect (released pos w)) (released pos w)
        = (Returned g, released pos w, [])
      /\ mouseReleaseEvent Qt.LeftButton pos w =
         (Returned tt,
          set_selection_rect Rect_new (set_is_selecting false w),
          [Emit on_set_cursor_wait;
           Emit on_minimize_windows;
           Emit (on_region_selected (_sanatize_rect g) (screen_idx w));
           Call Qt.update]).
Proof.
  intros Hinit w Hsel.
  destruct (constructed_window_invariant sys idx color w0 t events Hinit)
    as [_ [screen Hscreen]].
  fold w in Hscreen.
  split; [reflexivity |]. split; [reflexivity |].
  eexists. split.
  - apply (to_global_rect_found (released pos w) _ screen). exact Hscreen.
  - erewrite mouseReleaseEvent_completed_run; [reflexivity | exact Hsel |].
    apply (to_global_rect_found (released pos w) _ screen). exact Hscreen.
Qed.

(** C5: in every state a constructed window reaches, the selections
    begun exceed the selections ended by at most one (by one exactly while
    [is_selecting] holds); [is_selecting] goes from false to true only in
    a primary-button press, from true to false only in a primary-button
    release or an Escape key press, and no other event changes it. *)
Theorem is_selecting_transitions
    (sys : SystemInfo) (idx : Z) (color : string) (w0 : BaseWindow)
    (t : list Effect) (events : list (World * Event))
    (env : World) (ev : Event) :
  __init__ sys idx color = (Returned tt, w0, t) ->
  let w := run w0 events in
  (begun w0 events
   = ended w0 events + (if is_selecting w then 1 else 0))%nat
  /\ (begun w0 events <= ended w0 events + 1)%nat
  /\ (is_selecting w = false -> is_selecting (step w (env, ev)) = true ->
      exists pos, ev = MousePress Qt.LeftButton pos)
  /\ (is_selecting w = true -> is_selecting (step w (env, ev)) = false ->
      (exists pos, ev = MouseRelease Qt.LeftButton pos)
      \/ ev = KeyPress Qt.Key_Escape)
  /\ ((forall pos, ev <> MousePress Qt.LeftButton pos) ->
      (forall pos, ev <> MouseRelease Qt.LeftButton pos) ->
      ev <> KeyPress Qt.Key_Escape ->
      is_selecting (step w (env, ev)) = is_selecting w).
Proof.
  intros Hinit w.
  apply init_returned in Hinit as (Hw0 & _ & _).
  assert (Hidle : is_selecting w0 = false) by (subst w0; reflexivity).
  pose proof (begun_ended_balance events w0) as Hbalance.
  rewrite Hidle in Hbalance. fold w in Hbalance.
  destruct (step_is_selecting w env ev) as [Hup Hdown].
  repeat split.
  - cbn in Hbalance. exact Hbalance.
  - destruct (is_selecting w); cbn in Hbalance; lia.
  - exact Hup.
  - exact Hdown.
  - intros Hpress Hrelease Hescape.
    destruct (is_selecting w) eqn:Hsel,
             (is_selecting (step w (env, ev))) eqn:Hsel'; try reflexivity.
    + destruct (Hdown eq_refl eq_refl) as [[pos Hev] | Hev];
        [elim (Hrelease pos Hev) | contradiction].
    + destruct (Hup eq_refl eq_refl) as [pos Hev].
      elim (Hpress pos Hev).
Qed.

(** C6: after any events, an Escape key press that finds [is_selecting]
    true returns with [is_selecting] false and every other attribute as
    it was, and emits no signal at all: no region-selected, no
    quit-or-hide, no set-cursor-wait, no minimize-windows. *)
Theorem escape_while_selecting_emits_nothing
    (w0 : BaseWindow) (events : list (World * Event)) (env : World) :
  is_selecting (run w0 events) = true ->
  let w := run w0 events in
  let r := dispatch env (KeyPress Qt.Key_Escape) w in
  outcome_of r = Returned tt
  /\ window_of r = set_is_selecting false w
  /\ is_selecting (window_of r) = false
  /\ signals_of (trace_of r) = []
  /\ emitted w [(env, KeyPress Qt.Key_Escape)] = [].
Proof.
  intros Hsel w r. subst r. cbn [dispatch emitted fst snd].
  rewrite (keyPressEvent_escape_selecting_run w Hsel).
  repeat split.
Qed.

(** C8: a primary-button press sets [mode_indicator] to the glyph of the
    capture mode read at that moment: "☰" for RAW, "★" for PARSE, the
    empty string for anything else. *)
Theorem mousePressEvent_mode_indicator
    (active : bool) (pos : Qt.QPoint) (w : BaseWindow) :
  let pressed mode :=
    window_of (mousePressEvent (mkWorld mode active) Qt.LeftButton pos w) in
  mode_indicator (pressed RAW) = "☰"%string
  /\ mode_indicator (pressed PARSE) = "★"%string
  /\ (forall tag, mode_indicator (pressed (OTHER_MODE tag)) = EmptyString)
  /\ (forall mode, is_selecting (pressed mode) = true).
Proof.
  cbv zeta. repeat split; intros; rewrite mousePressEvent_left_run; reflexivity.
Qed.

(** C9: a pointer move, whether or not a selection is in progress,
    overwrites the bottom and right edges of [selection_rect] with the
    pointer position and leaves the top and left edges, [is_selecting] and
    every other attribute as they were; so a move on an idle window whose
    rectangle does not already end at the pointer changes
    [selection_rect]. *)
Theorem mouseMoveEvent_writes_bottom_right_only
    (pos : Qt.QPoint) (w : BaseWindow) :
  let w' := window_of (mouseMoveEvent pos w) in
  outcome_of (mouseMoveEvent pos w) = Returned tt
  /\ selection_rect w'
     = mkRect (top (selection_rect w)) (left (selection_rect w))
              (Qt.y pos) (Qt.x pos)
  /\ w' = set_selection_rect (selection_rect w') w
  /\ is_selecting w' = is_selecting w
  /\ signals_of (trace_of (mouseMoveEvent pos w)) = []
  /\ (is_selecting w = false ->
      bottom (selection_rect w) <> Qt.y pos
      \/ right (selection_rect w) <> Qt.x pos ->
      selection_rect w' <> selection_rect w).
Proof.
  cbv zeta. rewrite mouseMoveEvent_run.
  unfold outcome_of, window_of, trace_of. cbn.
  repeat split.
  intros _ Hmoved Heq. destruct (selection_rect w) as [t l b r]; cbn in *.
  injection Heq as Hb Hr. destruct Hmoved; congruence.
Qed.

(** * Platform dispatch *)

(** C7: on a platform that is none of Linux, macOS and Windows,
    [set_fullscreen] raises NotImplementedError having made no placement
    call, so there is no silent fallback; on each of the three it never
    raises that error: it returns when the screen index can be looked up,
    and raises IndexError from the lookup when it cannot. *)
Theorem set_fullscreen_unsupported_platform (w : BaseWindow) :
  (platform (system_info w) <> LINUX ->
   platform (system_info w) <> MACOS ->
   platform (system_info w) <> WINDOWS ->
   set_fullscreen w =
     (Raised (NotImplementedError (platform (system_info w))), w,
      [Log (setting_fullscreen (screen_idx w))])
   /\ existsb is_placement (trace_of (set_fullscreen w)) = false)
  /\ (platform (system_info w) = LINUX
      \/ platform (system_info w) = MACOS
      \/ platform (system_info w) = WINDOWS ->
      (forall p, outcome_of (set_fullscreen w) <> Raised (NotImplementedError p))
      /\ (valid_index w -> outcome_of (set_fullscreen w) = Returned tt)
      /\ (py_getitem (screens (system_info w)) (screen_idx w) = None ->
          outcome_of (set_fullscreen w) = Raised IndexError)).
Proof.
  split.
  - intros Hlinux Hmacos Hwindows.
    assert (Hrun : set_fullscreen w =
      (Raised (NotImplementedError (platform (system_info w))), w,
       [Log (setting_fullscreen (screen_idx w))])).
    { rewrite (set_fullscreen_branch w _ eq_refl).
      destruct (platform (system_info w)); try congruence. reflexivity. }
    rewrite Hrun. split; reflexivity.
  - intros Hsupported.
    destruct (set_fullscreen_outcome w) as [_ Houtcome].
    assert (Hs : supported (platform (system_info w)) = true)
      by (destruct Hsupported as [-> | [-> | ->]]; reflexivity).
    rewrite Hs in Houtcome. rewrite Houtcome. repeat split.
    + intros p. destruct (py_getitem _ _); discriminate.
    + intros [screen ->]. reflexivity.
    + intros ->. reflexivity.
Qed.

(** C10: on Linux, [set_fullscreen] runs [_set_fullscreen_linux_wayland]
    whatever the display manager: it is its log line followed by that
    procedure, and the same window on any other display manager ends the
    same way with the same calls. *)
Theorem set_fullscreen_linux_one_procedure
    (w : BaseWindow) (dm : DisplayManager) :
  platform (system_info w) = LINUX ->
  set_fullscreen w =
    (perform (Log (setting_fullscreen (screen_idx w))) ;;
     _set_fullscreen_linux_wayland) w
  /\ outcome_of (set_fullscreen (with_display_manager dm w))
     = outcome_of (set_fullscreen (with_display_manager WAYLAND w))
  /\ trace_of (set_fullscreen (with_display_manager dm w))
     = trace_of (set_fullscreen (with_display_manager WAYLAND w)).
Proof.
  intros Hlinux.
  assert (Hany : forall w', platform (system_info w') = LINUX ->
    set_fullscreen w' =
      (perform (Log (setting_fullscreen (screen_idx w'))) ;;
       _set_fullscreen_linux_wayland) w').
  { intros w' Hw'. rewrite (set_fullscreen_branch w' _ eq_refl), Hw'.
    cbn [Platform_eqb].
    destruct (DisplayManager_eqb (display_manager (system_info w')) WAYLAND);
      unfold bind, perform, outcome_of, window_of, trace_of;
      destruct (_set_fullscreen_linux_wayland w') as [[o w''] t'];
      reflexivity. }
  split; [apply Hany; exact Hlinux |].
  rewrite !Hany by exact Hlinux.
  unfold bind, perform, outcome_of, trace_of.
  rewrite !set_fullscreen_linux_wayland_run. cbn.
  destruct (py_getitem (screens (system_info w)) (screen_idx w));
    split; reflexivity.
Qed.

(** * Further properties of the geometry utilities *)

(** X1: on each axis the result of [_sanatize_rect] is ordered exactly
    when the input was ordered on that axis or inverted by at least 8,
    twice the margin correction. *)
Theorem sanatize_rect_ordered_iff (r : Rect) :
  (top (_sanatize_rect r) <= bottom (_sanatize_rect r)
   <-> top r <= bottom r \/ bottom r + 8 <= top r)
  /\ (left (_sanatize_rect r) <= right (_sanatize_rect r)
      <-> left r <= right r \/ right r + 8 <= left r).
Proof.
  rewrite sanatize_rect_top, sanatize_rect_bottom,
    sanatize_rect_left, sanatize_rect_right.
  split; by_edges.
Qed.

(** X2: [_sanatize_rect] returns its argument unchanged exactly when each
    axis is ordered or inverted by exactly the margin correction 4. *)
Theorem sanatize_rect_fixed_points (r : Rect) :
  _sanatize_rect r = r
  <-> (top r <= bottom r \/ top r = bottom r + 4)
      /\ (left r <= right r \/ left r = right r + 4).
Proof.
  split.
  - intros Hfix.
    pose proof (f_equal top Hfix) as Ht.
    pose proof (f_equal left Hfix) as Hl.
    rewrite sanatize_rect_top in Ht. rewrite sanatize_rect_left in Hl.
    revert Ht Hl. by_edges.
  - intros [Hv Hh]. destruct r as [t l b rg]; cbn in *.
    unfold _sanatize_rect; cbn. by_edges;
      unfold set_left, set_right, set_top, set_bottom; cbn; f_equal; lia.
Qed.

(** X3: applied to a rectangle each of whose axes is ordered or inverted
    by at least 8, [_sanatize_rect] is idempotent. *)
Theorem sanatize_rect_idempotent (r : Rect) :
  top r <= bottom r \/ bottom r + 8 <= top r ->
  left r <= right r \/ right r + 8 <= left r ->
  _sanatize_rect (_sanatize_rect r) = _sanatize_rect r.
Proof.
  intros Hv Hh. apply sanatize_rect_ordered_unchanged.
  - rewrite sanatize_rect_top, sanatize_rect_bottom. by_edges.
  - rewrite sanatize_rect_left, sanatize_rect_right. by_edges.
Qed.

(** X4: on a rectangle inverted by less than 8 on both axes,
    [_sanatize_rect] is its own inverse: the second application gives the
    first argument back. *)
Theorem sanatize_rect_narrow_involution (r : Rect) :
  bottom r < top r < bottom r + 8 ->
  right r < left r < right r + 8 ->
  _sanatize_rect (_sanatize_rect r) = r.
Proof.
  intros Hv Hh. destruct r as [t l b rg]; cbn in *.
  unfold _sanatize_rect; cbn. by_edges;
    unfold set_left, set_right, set_top, set_bottom; cbn; f_equal; lia.
Qed.

(** * Further properties of the selection state machine *)

Lemma mouseReleaseEvent_found_run (pos : Qt.QPoint) (w : BaseWindow)
    (screen : ScreenInfo) :
  is_selecting w = true ->
  py_getitem (screens (system_info w)) (screen_idx w) = Some screen ->
  mouseReleaseEvent Qt.LeftButton pos w =
    (Returned tt,
     set_selection_rect Rect_new (set_is_selecting false w),
     [Emit on_set_cursor_wait;
      Emit on_minimize_windows;
      Emit (on_region_selected
              (_sanatize_rect
                 (mkRect
                    (top (selection_rect w) + Geometry.top (geometry screen)
                     + pen_width w)
                    (left (selection_rect w) + Geometry.left (geometry screen)
                     + pen_width w)
                    (Qt.y pos + Geometry.top (geometry screen) - pen_width w)
                    (Qt.x pos + Geometry.left (geometry screen) - pen_width w)))
              (screen_idx w));
      Call Qt.update]).
Proof.
  intros Hsel Hscreen.
  rewrite (mouseReleaseEvent_completed_run pos w _ Hsel
             (to_global_rect_found (released pos w)
                (selection_rect (released pos w)) screen Hscreen)).
  reflexivity.
Qed.

(** The signals of a primary-button press followed by a primary-button
    release, with the screen found. *)
Lemma press_release_emitted (w : BaseWindow) (screen : ScreenInfo)
    (env env' : World) (a b : Qt.QPoint) :
  py_getitem (screens (system_info w)) (screen_idx w) = Some screen ->
  emitted w [(env, MousePress Qt.LeftButton a);
             (env', MouseRelease Qt.LeftButton b)]
  = [on_set_cursor_wait;
     on_minimize_windows;
     on_region_selected
       (_sanatize_rect
          (mkRect (Qt.y a + Geometry.top (geometry screen) + pen_width w)
                  (Qt.x a + Geometry.left (geometry screen) + pen_width w)
                  (Qt.y b + Geometry.top (geometry screen) - pen_width w)
                  (Qt.x b + Geometry.left (geometry screen) - pen_width w)))
       (screen_idx w)].
Proof.
  intros Hscreen. cbn [emitted fst snd dispatch].
  rewrite mousePressEvent_left_run.
  unfold window_of, trace_of. cbn [fst snd].
  rewrite (mouseReleaseEvent_found_run b _ screen);
    [reflexivity | reflexivity | exact Hscreen].
Qed.

(** [_sanatize_rect] after the shrink by 2, on a drag of at least 4 units
    on each axis: the corners sorted, then shrunk. *)
Lemma sanatize_shrunk_drag (ya xa yb xb ox oy : Z) :
  4 <= Z.abs (xa - xb) -> 4 <= Z.abs (ya - yb) ->
  _sanatize_rect (mkRect (ya + oy + 2) (xa + ox + 2)
                         (yb + oy - 2) (xb + ox - 2))
  = mkRect (Z.min ya yb + oy + 2) (Z.min xa xb + ox + 2)
           (Z.max ya yb + oy - 2) (Z.max xa xb + ox - 2).
Proof.
  intros Hx Hy. unfold _sanatize_rect; cbn. by_edges;
    unfold set_left, set_right, set_top, set_bottom; cbn; f_equal; lia.
Qed.

(** X5: a drag of at least 4 units on each axis emits the same region
    whichever corner it starts from: the rectangle spanned by the two
    points, moved by the screen's offset and shrunk by 2 on every side,
    which is ordered. *)
Theorem drag_region_independent_of_direction
    (w : BaseWindow) (screen : ScreenInfo) (env env' : World)
    (a b : Qt.QPoint) :
  py_getitem (screens (system_info w)) (screen_idx w) = Some screen ->
  pen_width w = 2 ->
  4 <= Z.abs (Qt.x a - Qt.x b) ->
  4 <= Z.abs (Qt.y a - Qt.y b) ->
  let region :=
    mkRect (Z.min (Qt.y a) (Qt.y b) + Geometry.top (geometry screen) + 2)
           (Z.min (Qt.x a) (Qt.x b) + Geometry.left (geometry screen) + 2)
           (Z.max (Qt.y a) (Qt.y b) + Geometry.top (geometry screen) - 2)
           (Z.max (Qt.x a) (Qt.x b) + Geometry.left (geometry screen) - 2) in
  emitted w [(env, MousePress Qt.LeftButton a);
             (env', MouseRelease Qt.LeftButton b)]
    = [on_set_cursor_wait; on_minimize_windows;
       on_region_selected region (screen_idx w)]
  /\ emitted w [(env, MousePress Qt.LeftButton b);
                (env', MouseRelease Qt.LeftButton a)]
     = [on_set_cursor_wait; on_minimize_windows;
        on_region_selected region (screen_idx w)]
  /\ top region <= bottom region
  /\ left region <= right region.
Proof.
  intros Hscreen Hpen Hx Hy region. subst region.
  rewrite !(press_release_emitted w screen) by exact Hscreen.
  rewrite Hpen.
  rewrite (sanatize_shrunk_drag (Qt.y a) (Qt.x a) (Qt.y b) (Qt.x b)) by lia.
  rewrite (sanatize_shrunk_drag (Qt.y b) (Qt.x b) (Qt.y a) (Qt.x a)) by lia.
  rewrite (Z.min_comm (Qt.y b)), (Z.min_comm (Qt.x b)),
    (Z.max_comm (Qt.y b)), (Z.max_comm (Qt.x b)).
  cbn [top bottom left right]. repeat split; lia.
Qed.

(** X6: a click, a press and a release at one point, is not filtered: it
    emits region-selected with a rectangle whose top is 4 below its
    bottom and whose left is 4 right of its right edge. *)
Theorem click_emits_inverted_region
    (w : BaseWindow) (screen : ScreenInfo) (env env' : World)
    (a : Qt.QPoint) :
  py_getitem (screens (system_info w)) (screen_idx w) = Some screen ->
  pen_width w = 2 ->
  emitted w [(env, MousePress Qt.LeftButton a);
             (env', MouseRelease Qt.LeftButton a)]
  = [on_set_cursor_wait; on_minimize_windows;
     on_region_selected
       (mkRect (Qt.y a + Geometry.top (geometry screen) + 2)
               (Qt.x a + Geometry.left (geometry screen) + 2)
               (Qt.y a + Geometry.top (geometry screen) - 2)
               (Qt.x a + Geometry.left (geometry screen) - 2))
       (screen_idx w)].
Proof.
  intros Hscreen Hpen.
  rewrite (press_release_emitted w screen) by exact Hscreen.
  rewrite Hpen.
  replace (_sanatize_rect
             (mkRect (Qt.y a + Geometry.top (geometry screen) + 2)
                     (Qt.x a + Geometry.left (geometry screen) + 2)
                     (Qt.y a + Geometry.top (geometry screen) - 2)
                     (Qt.x a + Geometry.left (geometry screen) - 2)))
    with (mkRect (Qt.y a + Geometry.top (geometry screen) + 2)
                 (Qt.x a + Geometry.left (geometry screen) + 2)
                 (Qt.y a + Geometry.top (geometry screen) - 2)
                 (Qt.x a + Geometry.left (geometry screen) - 2));
    [reflexivity |].
  unfold _sanatize_rect; cbn. by_edges;
    unfold set_left, set_right, set_top, set_bottom; cbn; f_equal; lia.
Qed.

Lemma move_of_is_move (e : World * Event) :
  is_move e = true -> exists pos, snd e = MouseMove pos.
Proof.
  destruct e as [env ev]; destruct ev; cbn; try discriminate. eauto.
Qed.

(** A release that completes a selection does not see a move before it. *)
Lemma mouseReleaseEvent_after_move (pos q : Qt.QPoint) (w : BaseWindow) :
  is_selecting w = true ->
  mouseReleaseEvent Qt.LeftButton pos (window_of (mouseMoveEvent q w))
  = mouseReleaseEvent Qt.LeftButton pos w.
Proof.
  intros Hsel. rewrite mouseMoveEvent_run. unfold window_of; cbn [fst snd].
  destruct (py_getitem (screens (system_info w)) (screen_idx w))
    as [screen |] eqn:Hscreen.
  - rewrite (mouseReleaseEvent_found_run pos _ screen);
      [| exact Hsel | exact Hscreen].
    rewrite (mouseReleaseEvent_found_run pos w screen Hsel Hscreen).
    reflexivity.
  - rewrite mouseReleaseEvent_raised_run; [| exact Hsel | exact Hscreen].
    rewrite (mouseReleaseEvent_raised_run pos w Hsel Hscreen).
    reflexivity.
Qed.

Lemma moves_then_release (moves : list (World * Event)) (w : BaseWindow)
    (env : World) (pos : Qt.QPoint) :
  forallb is_move moves = true ->
  is_selecting w = true ->
  emitted w (moves ++ [(env, MouseRelease Qt.LeftButton pos)])
    = emitted w [(env, MouseRelease Qt.LeftButton pos)]
  /\ run w (moves ++ [(env, MouseRelease Qt.LeftButton pos)])
     = run w [(env, MouseRelease Qt.LeftButton pos)].
Proof.
  revert w. induction moves as [| e rest IH]; intros w Hmoves Hsel.
  - split; reflexivity.
  - cbn [forallb] in Hmoves. apply andb_prop in Hmoves as [He Hrest].
    destruct (move_of_is_move e He) as [q Hq].
    destruct e as [env0 ev]; cbn in Hq; subst ev.
    assert (Hsel' : is_selecting (window_of (mouseMoveEvent q w)) = true)
      by (rewrite mouseMoveEvent_run; exact Hsel).
    destruct (IH _ Hrest Hsel') as [IHe IHr].
    unfold run, step in *. cbn [app emitted fold_left fst snd dispatch] in *.
    rewrite IHe, IHr.
    rewrite (mouseReleaseEvent_after_move pos q w Hsel).
    rewrite mouseMoveEvent_run at 1. split; reflexivity.
Qed.

(** X7: the pointer moves between a press and the release that completes
    the selection leave no mark: what is emitted, and the window left
    behind, are those of the press followed at once by the release. *)
Theorem region_depends_on_press_and_release_only
    (w : BaseWindow) (env env' : World) (a b : Qt.QPoint)
    (moves : list (World * Event)) :
  forallb is_move moves = true ->
  emitted w ((env, MousePress Qt.LeftButton a) :: moves
             ++ [(env', MouseRelease Qt.LeftButton b)])
    = emitted w [(env, MousePress Qt.LeftButton a);
                 (env', MouseRelease Qt.LeftButton b)]
  /\ run w ((env, MousePress Qt.LeftButton a) :: moves
            ++ [(env', MouseRelease Qt.LeftButton b)])
     = run w [(env, MousePress Qt.LeftButton a);
              (env', MouseRelease Qt.LeftButton b)].
Proof.
  intros Hmoves.
  assert (Hsel : is_selecting
            (window_of (mousePressEvent env Qt.LeftButton a w)) = true)
    by (rewrite mousePressEvent_left_run; reflexivity).
  destruct (moves_then_release moves _ env' b Hmoves Hsel) as [He Hr].
  unfold run, step in *.
  cbn [emitted fold_left fst snd dispatch] in *.
  rewrite He, Hr. split; reflexivity.
Qed.

(** A primary-button press overwrites whatever a press or a move before
    it wrote. *)
Lemma mousePressEvent_after_press (env env0 : World) (a b : Qt.QPoint)
    (w : BaseWindow) :
  mousePressEvent env Qt.LeftButton b
    (window_of (mousePressEvent env0 Qt.LeftButton a w))
  = mousePressEvent env Qt.LeftButton b w.
Proof. rewrite !mousePressEvent_left_run. reflexivity. Qed.

Lemma mousePressEvent_after_move (env : World) (q b : Qt.QPoint)
    (w : BaseWindow) :
  mousePressEvent env Qt.LeftButton b (window_of (mouseMoveEvent q w))
  = mousePressEvent env Qt.LeftButton b w.
Proof. rewrite !mousePressEvent_left_run, mouseMoveEvent_run. reflexivity. Qed.

Lemma moves_then_press (moves rest : list (World * Event)) (w : BaseWindow)
    (env : World) (b : Qt.QPoint) :
  forallb is_move moves = true ->
  emitted w (moves ++ (env, MousePress Qt.LeftButton b) :: rest)
    = emitted w ((env, MousePress Qt.LeftButton b) :: rest)
  /\ run w (moves ++ (env, MousePress Qt.LeftButton b) :: rest)
     = run w ((env, MousePress Qt.LeftButton b) :: rest).
Proof.
  revert w. induction moves as [| e more IH]; intros w Hmoves.
  - split; reflexivity.
  - cbn [forallb] in Hmoves. apply andb_prop in Hmoves as [He Hmore].
    destruct (move_of_is_move e He) as [q Hq].
    destruct e as [env0 ev]; cbn in Hq; subst ev.
    destruct (IH (window_of (mouseMoveEvent q w)) Hmore) as [IHe IHr].
    unfold run, step in *. cbn [app emitted fold_left fst snd dispatch] in *.
    rewrite IHe, IHr. rewrite !mousePressEvent_after_move.
    rewrite mouseMoveEvent_run at 1. split; reflexivity.
Qed.

(** X8: a primary-button press during a selection starts the selection
    over: the press before it, and the moves between the two, change
    nothing of what is emitted afterwards nor of the window reached. *)
Theorem second_press_discards_first
    (w : BaseWindow) (env env' : World) (a b : Qt.QPoint)
    (moves rest : list (World * Event)) :
  forallb is_move moves = true ->
  emitted w ((env, MousePress Qt.LeftButton a) :: moves
             ++ (env', MousePress Qt.LeftButton b) :: rest)
    = emitted w ((env', MousePress Qt.LeftButton b) :: rest)
  /\ run w ((env, MousePress Qt.LeftButton a) :: moves
            ++ (env', MousePress Qt.LeftButton b) :: rest)
     = run w ((env', MousePress Qt.LeftButton b) :: rest).
Proof.
  intros Hmoves.
  destruct (moves_then_press moves rest
              (window_of (mousePressEvent env Qt.LeftButton a w)) env' b
              Hmoves) as [He Hr].
  unfold run, step in *.
  cbn [emitted fold_left fst snd dispatch] in *.
  rewrite He, Hr. rewrite !mousePressEvent_after_press.
  rewrite mousePressEvent_left_run at 1. split; reflexivity.
Qed.

Lemma moves_then_release_idle (moves : list (World * Event)) (w : BaseWindow)
    (env : World) (button : Qt.MouseButton) (pos : Qt.QPoint) :
  forallb is_move moves = true ->
  is_selecting w = false ->
  emitted w (moves ++ [(env, MouseRelease button pos)]) = [].
Proof.
  revert w. induction moves as [| e rest IH]; intros w Hmoves Hidle.
  - cbn [app emitted fst snd dispatch].
    rewrite mouseReleaseEvent_ignored_run by (right; exact Hidle).
    reflexivity.
  - cbn [forallb] in Hmoves. apply andb_prop in Hmoves as [He Hrest].
    destruct (move_of_is_move e He) as [q Hq].
    destruct e as [env0 ev]; cbn in Hq; subst ev.
    cbn [app emitted fst snd dispatch].
    rewrite IH; [| exact Hrest | rewrite mouseMoveEvent_run; exact Hidle].
    rewrite mouseMoveEvent_run. reflexivity.
Qed.

(** X9: once Escape has aborted a selection, the moves and the button
    release that follow emit nothing: no region is captured. *)
Theorem release_after_escape_emits_nothing
    (w : BaseWindow) (env env' : World) (button : Qt.MouseButton)
    (pos : Qt.QPoint) (moves : list (World * Event)) :
  is_selecting w = true ->
  forallb is_move moves = true ->
  emitted w ((env, KeyPress Qt.Key_Escape) :: moves
             ++ [(env', MouseRelease button pos)]) = [].
Proof.
  intros Hsel Hmoves. cbn [emitted fst snd dispatch].
  rewrite (keyPressEvent_escape_selecting_run w Hsel).
  unfold window_of, trace_of; cbn [fst snd].
  rewrite moves_then_release_idle; [reflexivity | exact Hmoves | reflexivity].
Qed.

(** X10: a release that completes a selection on a window whose screen
    index is out of range raises IndexError half way: set-cursor-wait and
    minimize-windows are already emitted and [is_selecting] is already
    false, but no region-selected follows, [selection_rect] keeps the
    dragged rectangle and no redraw is asked for. *)
Theorem mouseReleaseEvent_index_error
    (w : BaseWindow) (pos : Qt.QPoint) :
  is_selecting w = true ->
  py_getitem (screens (system_info w)) (screen_idx w) = None ->
  let r := mouseReleaseEvent Qt.LeftButton pos w in
  outcome_of r = Raised IndexError
  /\ signals_of (trace_of r) = [on_set_cursor_wait; on_minimize_windows]
  /\ existsb (fun eff => match eff with Call Qt.update => true | _ => false end)
             (trace_of r) = false
  /\ is_selecting (window_of r) = false
  /\ selection_rect (window_of r)
     = mkRect (top (selection_rect w)) (left (selection_rect w))
              (Qt.y pos) (Qt.x pos).
Proof.
  intros Hsel Hscreen r. subst r.
  rewrite (mouseReleaseEvent_raised_run pos w Hsel Hscreen).
  repeat split.
Qed.

(** * Further properties of the event loop *)

Lemma changeEvent_run (env : World) (event_type : Z) (w : BaseWindow) :
  changeEvent env event_type w =
    if (event_type =? Qt.ActivationChange)
       && DisplayManager_eqb (display_manager (system_info w)) WAYLAND
       && isActiveWindow env && negb (is_positioned w)
    then
      match py_getitem (screens (system_info w)) (screen_idx w) with
      | Some screen =>
          (Returned tt, set_is_positioned true w,
           [Log (printed_event_type event_type);
            Log (positioning_window (screen_idx w));
            Call Qt.setFocus;
            Log (moving_window (screen_idx w) (geometry screen));
            move_active_window_to_position_on_gnome (geometry screen);
            Emit on_window_positioned;
            Call (Qt.super_changeEvent event_type)])
      | None =>
          (Raised IndexError, w,
           [Log (printed_event_type event_type);
            Log (positioning_window (screen_idx w));
            Call Qt.setFocus])
      end
    else
      (Returned tt, w,
       [Log (printed_event_type event_type);
        Call (Qt.super_changeEvent event_type)]).
Proof.
  unfold changeEvent, _position_windows_on_wayland. unfold_method. cbn.
  destruct ((event_type =? Qt.ActivationChange)
            && DisplayManager_eqb (display_manager (system_info w)) WAYLAND
            && isActiveWindow env && negb (is_positioned w)); cbn;
    [destruct (py_getitem (screens (system_info w)) (screen_idx w)) |];
    reflexivity.
Qed.

Lemma paintEvent_run (w : BaseWindow) :
  paintEvent w =
    if is_selecting w then
      (Returned tt, w,
       [Call (Qt.setPen (primary_color w) (pen_width w) Qt.DashLine);
        Call (Qt.drawRect (Rect_geometry (selection_rect w)));
        Call (Qt.setFont 24);
        Call (Qt.drawText
                (Z.max (right (selection_rect w)) (left (selection_rect w)) - 18)
                (Z.min (bottom (selection_rect w)) (top (selection_rect w)) - 8)
                (mode_indicator w));
        Call Qt.painter_end])
    else (Returned tt, w, []).
Proof.
  unfold paintEvent. unfold_method. cbn. destruct (is_selecting w); reflexivity.
Qed.

Lemma DisplayManager_eqb_eq (a b : DisplayManager) :
  DisplayManager_eqb a b = true <-> a = b.
Proof. destruct a, b; cbn; split; congruence. Qed.

(** What one event can emit, and what the window then looks like. *)
Lemma step_signals (w : BaseWindow) (env : World) (ev : Event) :
  let r := dispatch env ev w in
  (signals_of (trace_of r) = []
   /\ (is_positioned (window_of r) = is_positioned w))
  \/ (signals_of (trace_of r)
        = [on_quit_or_hide "esc button pressed"%string]
      /\ window_of r = w)
  \/ (signals_of (trace_of r) = [on_set_cursor_wait; on_minimize_windows]
      /\ is_selecting w = true /\ is_selecting (window_of r) = false
      /\ is_positioned (window_of r) = is_positioned w)
  \/ ((exists g, signals_of (trace_of r)
                 = [on_set_cursor_wait; on_minimize_windows;
                    on_region_selected g (screen_idx w)])
      /\ is_selecting w = true /\ is_selecting (window_of r) = false
      /\ is_positioned (window_of r) = is_positioned w)
  \/ (signals_of (trace_of r) = [on_window_positioned]
      /\ is_positioned w = false /\ is_positioned (window_of r) = true
      /\ display_manager (system_info w) = WAYLAND
      /\ is_selecting (window_of r) = is_selecting w).
Proof.
  cbv zeta.
  destruct ev as [| key | button pos | pos | button pos | event_type];
    cbn [dispatch].
  - left. rewrite paintEvent_run. destruct (is_selecting w); split; reflexivity.
  - destruct (Z.eq_dec key Qt.Key_Escape) as [-> | Hkey].
    + destruct (is_selecting w) eqn:Hsel.
      * left. rewrite keyPressEvent_escape_selecting_run by exact Hsel.
        split; reflexivity.
      * right; left. rewrite keyPressEvent_escape_idle_run by exact Hsel.
        split; reflexivity.
    + left. rewrite keyPressEvent_other_run by exact Hkey. split; reflexivity.
  - left. destruct button;
      try (rewrite mousePressEvent_other_run by discriminate;
           split; reflexivity).
    rewrite mousePressEvent_left_run. split; reflexivity.
  - left. rewrite mouseMoveEvent_run. split; reflexivity.
  - destruct button;
      try (left; rewrite mouseReleaseEvent_ignored_run by (left; discriminate);
           split; reflexivity).
    destruct (is_selecting w) eqn:Hsel.
    + destruct (py_getitem (screens (system_info w)) (screen_idx w))
        as [screen |] eqn:Hscreen.
      * right; right; right; left.
        rewrite (mouseReleaseEvent_found_run pos w screen Hsel Hscreen).
        repeat split. eexists. reflexivity.
      * right; right; left.
        rewrite (mouseReleaseEvent_raised_run pos w Hsel Hscreen).
        repeat split.
    + left. rewrite mouseReleaseEvent_ignored_run by (right; exact Hsel).
      split; reflexivity.
  - rewrite changeEvent_run.
    destruct ((event_type =? Qt.ActivationChange)
              && DisplayManager_eqb (display_manager (system_info w)) WAYLAND
              && isActiveWindow env && negb (is_positioned w)) eqn:Hguard.
    + apply andb_prop in Hguard as [Hguard Hpos].
      apply andb_prop in Hguard as [Hguard _].
      apply andb_prop in Hguard as [_ Hdm].
      apply DisplayManager_eqb_eq in Hdm.
      apply negb_true_iff in Hpos.
      destruct (py_getitem (screens (system_info w)) (screen_idx w)).
      * right; right; right; right. repeat split; assumption.
      * left. split; reflexivity.
    + left. split; reflexivity.
Qed.

Lemma count_signals_app (f : Signal -> bool) (l l' : list Signal) :
  count_signals f (l ++ l') = (count_signals f l + count_signals f l')%nat.
Proof. unfold count_signals. rewrite filter_app, length_app. reflexivity. Qed.

Lemma regions_le_ended (events : list (World * Event)) (w : BaseWindow) :
  (count_signals is_region_selected (emitted w events)
   <= ended w events)%nat.
Proof.
  revert w. induction events as [| [env ev] rest IH]; intros w.
  - cbn. lia.
  - cbn [emitted ended fst snd]. rewrite count_signals_app.
    specialize (IH (window_of (dispatch env ev w))).
    unfold step at 1 2. cbn [fst snd].
    destruct (step_signals w env ev)
      as [[-> _] | [[-> _] | [(-> & -> & -> & _) | [([g ->] & -> & -> & _)
         | (-> & _)]]]]; cbn; lia.
Qed.

(** X11: along any events, no more regions are emitted than selections
    were begun, counting one the window was already in. *)
Theorem regions_emitted_le_selections_begun
    (w : BaseWindow) (events : list (World * Event)) :
  (count_signals is_region_selected (emitted w events)
   <= begun w events + (if is_selecting w then 1 else 0))%nat.
Proof.
  pose proof (regions_le_ended events w) as Hle.
  pose proof (begun_ended_balance events w) as Hbalance.
  destruct (is_selecting w), (is_selecting (run w events)); lia.
Qed.

(** X12: along any events window-positioned is emitted at most once, and
    never on a window that is already positioned; [is_positioned] never
    goes back to false. *)
Theorem window_positioned_at_most_once
    (w : BaseWindow) (events : list (World * Event)) :
  (count_signals is_window_positioned (emitted w events)
   <= (if is_positioned w then 0 else 1))%nat
  /\ (is_positioned w = true -> is_positioned (run w events) = true).
Proof.
  revert w. unfold run.
  induction events as [| [env ev] rest IH]; intros w.
  - cbn. split; [destruct (is_positioned w); lia | auto].
  - cbn [emitted fold_left fst snd]. rewrite count_signals_app.
    unfold step at 2. cbn [fst snd].
    destruct (IH (window_of (dispatch env ev w))) as [IHc IHp].
    destruct (step_signals w env ev)
      as [[Hs Hp] | [[Hs Hw] | [(Hs & _ & _ & Hp) | [([g Hs] & _ & _ & Hp)
         | (Hs & Hp & Hp' & _)]]]];
      rewrite Hs; try rewrite Hw in *; try rewrite Hp in *;
      try rewrite Hp' in *; cbn in *;
      (split; [try lia; destruct (is_positioned w); lia | auto; congruence]).
Qed.

Lemma step_off_wayland (w : BaseWindow) (env : World) (ev : Event) :
  display_manager (system_info w) <> WAYLAND ->
  let r := dispatch env ev w in
  existsb is_gnome_move (trace_of r) = false
  /\ count_signals is_window_positioned (signals_of (trace_of r)) = O
  /\ is_positioned (window_of r) = is_positioned w.
Proof.
  intros Hdm. cbv zeta.
  destruct ev as [| key | button pos | pos | button pos | event_type];
    cbn [dispatch].
  - rewrite paintEvent_run. destruct (is_selecting w); repeat split.
  - destruct (Z.eq_dec key Qt.Key_Escape) as [-> | Hkey].
    + destruct (is_selecting w) eqn:Hsel.
      * rewrite keyPressEvent_escape_selecting_run by exact Hsel.
        repeat split.
      * rewrite keyPressEvent_escape_idle_run by exact Hsel. repeat split.
    + rewrite keyPressEvent_other_run by exact Hkey. repeat split.
  - destruct button;
      try (rewrite mousePressEvent_other_run by discriminate; repeat split).
    rewrite mousePressEvent_left_run. repeat split.
  - rewrite mouseMoveEvent_run. repeat split.
  - destruct button;
      try (rewrite mouseReleaseEvent_ignored_run by (left; discriminate);
           repeat split).
    destruct (is_selecting w) eqn:Hsel.
    + destruct (py_getitem (screens (system_info w)) (screen_idx w))
        as [screen |] eqn:Hscreen.
      * rewrite (mouseReleaseEvent_found_run pos w screen Hsel Hscreen).
        repeat split.
      * rewrite (mouseReleaseEvent_raised_run pos w Hsel Hscreen).
        repeat split.
    + rewrite mouseReleaseEvent_ignored_run by (right; exact Hsel).
      repeat split.
  - rewrite changeEvent_run.
    destruct (DisplayManager_eqb (display_manager (system_info w)) WAYLAND)
      eqn:Heqb.
    + apply DisplayManager_eqb_eq in Heqb. contradiction.
    + rewrite andb_false_r. cbn [andb]. repeat split.
Qed.

(** X13: on a display manager other than Wayland no event ever leads to
    the GNOME repositioning call or to window-positioned, and
    [is_positioned] stays as it is. *)
Theorem never_positions_off_wayland
    (w : BaseWindow) (events : list (World * Event)) :
  display_manager (system_info w) <> WAYLAND ->
  existsb is_gnome_move (trace_along w events) = false
  /\ count_signals is_window_positioned (emitted w events) = O
  /\ is_positioned (run w events) = is_positioned w.
Proof.
  revert w. unfold run.
  induction events as [| [env ev] rest IH]; intros w Hdm.
  - repeat split.
  - cbn [trace_along emitted fold_left fst snd].
    rewrite existsb_app, count_signals_app.
    destruct (step_off_wayland w env ev Hdm) as (-> & -> & Hpos).
    unfold step at 2. cbn [fst snd].
    assert (Hdm' : display_manager
                     (system_info (window_of (dispatch env ev w)))
                   <> WAYLAND).
    { destruct (step_frame w (env, ev)) as [Hsys _].
      unfold step in Hsys. cbn [fst snd] in Hsys. rewrite Hsys. exact Hdm. }
    destruct (IH _ Hdm') as (-> & -> & ->).
    repeat split. exact Hpos.
Qed.

Lemma step_mode_indicator (w : BaseWindow) (e : World * Event) :
  is_left_press e = false ->
  mode_indicator (step w e) = mode_indicator w.
Proof.
  destruct e as [env ev]. unfold step, is_left_press; cbn [fst snd].
  destruct ev as [| key | button pos | pos | button pos | event_type];
    cbn [dispatch]; intros Hpress.
  - rewrite (proj1 (paintEvent_window w)). reflexivity.
  - destruct (Z.eq_dec key Qt.Key_Escape) as [-> | Hkey].
    + destruct (is_selecting w) eqn:Hsel.
      * rewrite keyPressEvent_escape_selecting_run by exact Hsel. reflexivity.
      * rewrite keyPressEvent_escape_idle_run by exact Hsel. reflexivity.
    + rewrite keyPressEvent_other_run by exact Hkey. reflexivity.
  - destruct button; try discriminate;
      rewrite mousePressEvent_other_run by discriminate; reflexivity.
  - rewrite mouseMoveEvent_run. reflexivity.
  - destruct (mouseReleaseEvent_window button pos w)
      as [-> | (_ & _ & [-> | ->])]; reflexivity.
  - destruct (changeEvent_window env event_type w) as [-> | ->]; reflexivity.
Qed.

(** X14: [mode_indicator] is written by a primary-button press and by
    nothing else: through any events without one it keeps its value,
    whatever the capture mode becomes meanwhile. *)
Theorem mode_indicator_fixed_between_presses
    (w : BaseWindow) (events : list (World * Event)) :
  existsb is_left_press events = false ->
  mode_indicator (run w events) = mode_indicator w.
Proof.
  revert w. unfold run.
  induction events as [| e rest IH]; intros w Hnone.
  - reflexivity.
  - cbn [existsb] in Hnone. apply orb_false_elim in Hnone as [He Hrest].
    cbn [fold_left]. rewrite (IH _ Hrest). apply step_mode_indicator. exact He.
Qed.

(** X15: while a selection is in progress [paintEvent] draws the mode
    indicator once, 18 left of the rectangle's rightmost edge and 8 above
    its topmost edge, so at the same point when the rectangle is turned
    over on either axis; on an idle window it draws nothing at all. *)
Theorem paintEvent_indicator_anchor
    (w : BaseWindow) (t l b r : Z) :
  let painted rect :=
    trace_of (paintEvent (set_selection_rect rect (set_is_selecting true w))) in
  texts_drawn (painted (mkRect t l b r))
    = [(Z.max l r - 18, Z.min t b - 8, mode_indicator w)]
  /\ texts_drawn (painted (mkRect b l t r))
     = texts_drawn (painted (mkRect t l b r))
  /\ texts_drawn (painted (mkRect t r b l))
     = texts_drawn (painted (mkRect t l b r))
  /\ paintEvent (set_is_selecting false w)
     = (Returned tt, set_is_selecting false w, []).
Proof.
  cbv zeta. rewrite !paintEvent_run. cbn.
  rewrite (Z.max_comm r l), (Z.min_comm b t). repeat split.
Qed.

(** X16: the first activation of an unpositioned window on Wayland looks
    the screen up, calls the GNOME repositioning with its geometry, sets
    [is_positioned], emits window-positioned and hands the event on; the
    next activation only prints and hands the event on. *)
Theorem changeEvent_positions_once
    (w : BaseWindow) (env env' : World) (screen : ScreenInfo) :
  display_manager (system_info w) = WAYLAND ->
  isActiveWindow env = true ->
  is_positioned w = false ->
  py_getitem (screens (system_info w)) (screen_idx w) = Some screen ->
  changeEvent env Qt.ActivationChange w
    = (Returned tt, set_is_positioned true w,
       [Log (printed_event_type Qt.ActivationChange);
        Log (positioning_window (screen_idx w));
        Call Qt.setFocus;
        Log (moving_window (screen_idx w) (geometry screen));
        move_active_window_to_position_on_gnome (geometry screen);
        Emit on_window_positioned;
        Call (Qt.super_changeEvent Qt.ActivationChange)])
  /\ changeEvent env' Qt.ActivationChange (set_is_positioned true w)
     = (Returned tt, set_is_positioned true w,
        [Log (printed_event_type Qt.ActivationChange);
         Call (Qt.super_changeEvent Qt.ActivationChange)]).
Proof.
  intros Hdm Hactive Hpos Hscreen. split.
  - rewrite changeEvent_run, Hdm, Hactive, Hpos, Hscreen. reflexivity.
  - rewrite changeEvent_run. cbn [is_positioned set_is_positioned negb].
    rewrite andb_false_r. reflexivity.
Qed.

(** X17: when that first activation finds the screen index out of range
    it raises IndexError after taking the focus: nothing is repositioned,
    no signal is emitted, [is_positioned] stays false and the event is
    not handed on to the base class. *)
Theorem changeEvent_index_error (w : BaseWindow) (env : World) :
  display_manager (system_info w) = WAYLAND ->
  isActiveWindow env = true ->
  is_positioned w = false ->
  py_getitem (screens (system_info w)) (screen_idx w) = None ->
  changeEvent env Qt.ActivationChange w
    = (Raised IndexError, w,
       [Log (printed_event_type Qt.ActivationChange);
        Log (positioning_window (screen_idx w));
        Call Qt.setFocus]).
Proof.
  intros Hdm Hactive Hpos Hscreen.
  rewrite changeEvent_run, Hdm, Hactive, Hpos, Hscreen. reflexivity.
Qed.

(** * Further properties of the platform dispatch and of construction *)

Lemma set_fullscreen_macos_run (w : BaseWindow) :
  _set_fullscreen_macos w =
    match py_getitem (screens (system_info w)) (screen_idx w) with
    | Some screen =>
        (Returned tt, w,
         macos_flags ++
         [Call (Qt.setGeometry (Geometry.left (geometry screen))
                               (Geometry.top (geometry screen))
                               (Geometry.width (geometry screen))
                               (Geometry.height (geometry screen)))])
    | None => (Raised IndexError, w, macos_flags)
    end.
Proof.
  unfold _set_fullscreen_macos. unfold_method. cbn.
  destruct (py_getitem (screens (system_info w)) (screen_idx w)); reflexivity.
Qed.

Lemma set_fullscreen_windows_run (w : BaseWindow) :
  _set_fullscreen_windows w =
    match py_getitem (screens (system_info w)) (screen_idx w) with
    | Some screen =>
        (Returned tt, w,
         windows_flags ++
         [Call (Qt.move (Geometry.left (geometry screen))
                        (Geometry.top (geometry screen)));
          Call Qt.showFullScreen])
    | None => (Raised IndexError, w, windows_flags)
    end.
Proof.
  unfold _set_fullscreen_windows. unfold_method. cbn.
  destruct (py_getitem (screens (system_info w)) (screen_idx w)); reflexivity.
Qed.

(** [set_fullscreen] on each platform, as the trace it leaves. *)
Lemma set_fullscreen_run (w : BaseWindow) :
  set_fullscreen w =
    let logged (r : outcome unit * BaseWindow * list Effect) :=
      (outcome_of r, window_of r,
       Log (setting_fullscreen (screen_idx w)) :: trace_of r) in
    match platform (system_info w) with
    | LINUX => logged (_set_fullscreen_linux_wayland w)
    | MACOS => logged (_set_fullscreen_macos w)
    | WINDOWS => logged (_set_fullscreen_windows w)
    | OTHER_PLATFORM name =>
        (Raised (NotImplementedError (OTHER_PLATFORM name)), w,
         [Log (setting_fullscreen (screen_idx w))])
    end.
Proof.
  rewrite (set_fullscreen_branch w _ eq_refl). cbv zeta.
  destruct (platform (system_info w)); cbn [Platform_eqb]; try reflexivity.
  destruct (DisplayManager_eqb (display_manager (system_info w)) WAYLAND);
    reflexivity.
Qed.

(** X18: on a supported platform with the screen index out of range
    [set_fullscreen] raises IndexError only after it has set the window's
    flags (frameless, always on top), the translucent-background
    attribute and the style sheet: its trace is the log line followed by
    the calls the platform's procedure makes before the lookup.  The
    window is neither placed nor shown, and its attributes are
    untouched. *)
Theorem set_fullscreen_index_error (w : BaseWindow) :
  supported (platform (system_info w)) = true ->
  py_getitem (screens (system_info w)) (screen_idx w) = None ->
  let t := trace_of (set_fullscreen w) in
  outcome_of (set_fullscreen w) = Raised IndexError
  /\ window_of (set_fullscreen w) = w
  /\ t = Log (setting_fullscreen (screen_idx w))
          :: match platform (system_info w) with
             | MACOS => macos_flags
             | WINDOWS => windows_flags
             | _ => linux_wayland_flags
             end
  /\ existsb (sets_flag Qt.FramelessWindowHint) t = true
  /\ existsb (sets_flag Qt.WindowStaysOnTopHint) t = true
  /\ In (Call (Qt.setAttribute Qt.WA_TranslucentBackground true)) t
  /\ existsb is_style_sheet t = true
  /\ existsb is_placement t = true
  /\ existsb is_positioning t = false
  /\ existsb is_show t = false.
Proof.
  intros Hsupported Hscreen. cbv zeta. rewrite set_fullscreen_run. cbv zeta.
  destruct (platform (system_info w)); try discriminate.
  - rewrite set_fullscreen_linux_wayland_run, Hscreen.
    unfold trace_of; cbn. repeat split; auto 10.
  - rewrite set_fullscreen_macos_run, Hscreen.
    unfold trace_of; cbn. repeat split; auto 10.
  - rewrite set_fullscreen_windows_run, Hscreen.
    unfold trace_of; cbn. repeat split; auto 10.
Qed.

(** X19: on every supported platform, with the screen found,
    [set_fullscreen] makes the window frameless and always on top with a
    translucent background and puts it at the screen's left and top; it
    ends by showing the window on Linux ([show]) and on Windows
    ([showFullScreen]), while on macOS it sets the whole geometry and
    makes no show call. *)
Theorem set_fullscreen_places_on_screen
    (w : BaseWindow) (screen : ScreenInfo) :
  supported (platform (system_info w)) = true ->
  py_getitem (screens (system_info w)) (screen_idx w) = Some screen ->
  let t := trace_of (set_fullscreen w) in
  let g := geometry screen in
  existsb (sets_flag Qt.FramelessWindowHint) t = true
  /\ existsb (sets_flag Qt.WindowStaysOnTopHint) t = true
  /\ In (Call (Qt.setAttribute Qt.WA_TranslucentBackground true)) t
  /\ match platform (system_info w) with
     | LINUX =>
         In (Call (Qt.move (Geometry.left g) (Geometry.top g))) t
         /\ In (Call (Qt.setMinimumSize (Geometry.width g) (Geometry.height g))) t
         /\ last t (Call Qt.update) = Call Qt.show
     | WINDOWS =>
         In (Call (Qt.move (Geometry.left g) (Geometry.top g))) t
         /\ last t (Call Qt.update) = Call Qt.showFullScreen
     | _ =>
         In (Call (Qt.setGeometry (Geometry.left g) (Geometry.top g)
                                  (Geometry.width g) (Geometry.height g))) t
         /\ existsb is_show t = false
     end.
Proof.
  intros Hsupported Hscreen. cbv zeta. rewrite set_fullscreen_run. cbv zeta.
  destruct (platform (system_info w)); try discriminate.
  - rewrite set_fullscreen_linux_wayland_run, Hscreen.
    unfold trace_of; cbn. repeat split; auto 10.
  - rewrite set_fullscreen_macos_run, Hscreen.
    unfold trace_of; cbn. repeat split; auto 10.
  - rewrite set_fullscreen_windows_run, Hscreen.
    unfold trace_of; cbn. repeat split; auto 10.
Qed.

(** X20: the constructor returns exactly when the platform is supported
    and the screen index is in range; the platform is checked first, so an
    unsupported platform raises NotImplementedError even with a bad
    index, and a supported one with a bad index raises IndexError.  The
    window it builds is idle, unpositioned, with pen width 2, the
    rectangle [Rect()] and the indicator "?". *)
Theorem init_outcome (sys : SystemInfo) (idx : Z) (color : string) :
  outcome_of (__init__ sys idx color)
    = (if supported (platform sys) then
         match py_getitem (screens sys) idx with
         | Some _ => Returned tt
         | None => Raised IndexError
         end
       else Raised (NotImplementedError (platform sys)))
  /\ window_of (__init__ sys idx color) = fresh_window sys idx color.
Proof.
  unfold __init__, _add_central_widget.
  fold (fresh_window sys idx color).
  set (w0 := fresh_window sys idx color).
  pose proof (set_fullscreen_run w0) as Hrun. cbv zeta in Hrun.
  unfold_method. cbn -[set_fullscreen].
  rewrite Hrun. subst w0. cbn [fresh_window system_info screen_idx platform].
  destruct (platform sys); cbn [supported Platform_eqb negb andb].
  - rewrite set_fullscreen_linux_wayland_run. cbn.
    destruct (py_getitem (screens sys) idx); repeat split.
  - rewrite set_fullscreen_macos_run. cbn.
    destruct (py_getitem (screens sys) idx); repeat split.
  - rewrite set_fullscreen_windows_run. cbn.
    destruct (py_getitem (screens sys) idx); repeat split.
  - repeat split.
Qed.

(** X21: a completed selection leaves the window as it was before the
    press but for the mode indicator: idle, [selection_rect] back at
    [Rect()], every other attribute untouched, whatever the moves in
    between. *)
Theorem completed_selection_restores_window
    (w : BaseWindow) (screen : ScreenInfo) (env env' : World)
    (a b : Qt.QPoint) (moves : list (World * Event)) :
  py_getitem (screens (system_info w)) (screen_idx w) = Some screen ->
  forallb is_move moves = true ->
  run w ((env, MousePress Qt.LeftButton a) :: moves
         ++ [(env', MouseRelease Qt.LeftButton b)])
  = set_selection_rect Rect_new
      (set_mode_indicator
         (match capture_mode env with
          | RAW => "☰"%string
          | PARSE => "★"%string
          | OTHER_MODE _ => EmptyString
          end)
         (set_is_selecting false w)).
Proof.
  intros Hscreen Hmoves.
  assert (Hsel : is_selecting
            (window_of (mousePressEvent env Qt.LeftButton a w)) = true)
    by (rewrite mousePressEvent_left_run; reflexivity).
  destruct (moves_then_release moves _ env' b Hmoves Hsel) as [_ Hr].
  unfold run, step in *. cbn [fold_left fst snd dispatch] in *.
  rewrite Hr.
  rewrite (mouseReleaseEvent_found_run b _ screen);
    [| exact Hsel | rewrite mousePressEvent_left_run; exact Hscreen].
  rewrite mousePressEvent_left_run. reflexivity.
Qed.

End Window.

(** * The properties at concrete windows *)

(** The drag of the specification's end-to-end example: on the second
    screen, at offset (1920, 0), from (100, 100) up and right to
    (300, 50). *)
Example upward_drag_on_second_screen :
  mouseReleaseEvent zero_rect Qt.LeftButton (Qt.mkQPoint 300 50)
    dragging_window
  = (Returned tt,
     set_selection_rect zero_rect (set_is_selecting false dragging_window),
     [Emit on_set_cursor_wait;
      Emit on_minimize_windows;
      Emit (on_region_selected (mkRect 52 2022 98 2218) 1);
      Call Qt.update]).
Proof. reflexivity. Qed.

(** An upward drag of one unit, from (100, 100) to (300, 99) on the first
    screen: the rectangle emitted has its top below its bottom. *)
Example narrow_upward_drag_emits_inverted_rect :
  emitted zero_rect edges_geometry idle_window
    [left_press 100 100; left_release 300 99]
  = [on_set_cursor_wait; on_minimize_windows;
     on_region_selected (mkRect 101 102 98 298) 0].
Proof. reflexivity. Qed.

Lemma mouseReleaseEvent_completes_selection_witness :
  let r0 := __init__ zero_rect (two_screens LINUX X11) 1 "#FF2E88"%string in
  let w := run zero_rect edges_geometry (window_of r0) [left_press 100 100] in
  r0 = (Returned tt, window_of r0, trace_of r0)
  /\ is_selecting w = true
  /\ exists g,
      _to_global_rect
        (selection_rect (released (Qt.mkQPoint 300 50) w))
        (released (Qt.mkQPoint 300 50) w)
        = (Returned g, released (Qt.mkQPoint 300 50) w, [])
      /\ mouseReleaseEvent zero_rect Qt.LeftButton (Qt.mkQPoint 300 50) w
         = (Returned tt,
            set_selection_rect zero_rect (set_is_selecting false w),
            [Emit on_set_cursor_wait;
             Emit on_minimize_windows;
             Emit (on_region_selected (_sanatize_rect g) (screen_idx w));
             Call Qt.update]).
Proof.
  cbv zeta.
  set (r0 := __init__ zero_rect (two_screens LINUX X11) 1 "#FF2E88"%string).
  assert (Hinit : r0 = (Returned tt, window_of r0, trace_of r0))
    by reflexivity.
  split; [exact Hinit |]. split; [reflexivity |].
  exact (proj2 (proj2 (mouseReleaseEvent_completes_selection zero_rect
                         edges_geometry (two_screens LINUX X11) 1
                         "#FF2E88"%string (window_of r0) (trace_of r0)
                         [left_press 100 100] (Qt.mkQPoint 300 50)
                         Hinit eq_refl))).
Defined.

Lemma to_global_rect_translates_then_shrinks_witness :
  py_getitem (screens (system_info dragging_window))
             (screen_idx dragging_window)
    = Some (mkScreenInfo 1 (Geometry.mk 1920 0 1920 1080))
  /\ pen_width dragging_window = 2
  /\ _to_global_rect (mkRect 100 100 50 300) dragging_window
     = (Returned (mkRect 102 2022 48 2218), dragging_window, []).
Proof.
  split; [reflexivity |]. split; [reflexivity |].
  exact (proj1 (to_global_rect_translates_then_shrinks dragging_window
                  (mkRect 100 100 50 300)
                  (mkScreenInfo 1 (Geometry.mk 1920 0 1920 1080))
                  eq_refl eq_refl)).
Defined.

Lemma sanatize_rect_axes_independent_witness :
  (top (mkRect 100 100 50 300) > bottom (mkRect 100 100 50 300)
   /\ left (mkRect 100 100 50 300) <= right (mkRect 100 100 50 300)
   /\ left (_sanatize_rect (mkRect 100 100 50 300)) = 100
   /\ right (_sanatize_rect (mkRect 100 100 50 300)) = 300)
  /\ (left (mkRect 50 300 100 100) > right (mkRect 50 300 100 100)
      /\ top (mkRect 50 300 100 100) <= bottom (mkRect 50 300 100 100)
      /\ top (_sanatize_rect (mkRect 50 300 100 100)) = 50
      /\ bottom (_sanatize_rect (mkRect 50 300 100 100)) = 100)
  /\ top (_sanatize_rect (mkRect 100 100 50 300))
     = top (_sanatize_rect (mkRect 100 300 50 100))
  /\ left (_sanatize_rect (mkRect 100 300 50 100))
     = left (_sanatize_rect (mkRect 50 300 100 100)).
Proof.
  assert (Hv : top (mkRect 100 100 50 300) > bottom (mkRect 100 100 50 300))
    by (cbn; lia).
  assert (Hv' : left (mkRect 100 100 50 300) <= right (mkRect 100 100 50 300))
    by (cbn; lia).
  assert (Hh : left (mkRect 50 300 100 100) > right (mkRect 50 300 100 100))
    by (cbn; lia).
  assert (Hh' : top (mkRect 50 300 100 100) <= bottom (mkRect 50 300 100 100))
    by (cbn; lia).
  refine (conj (conj Hv (conj Hv' _)) (conj (conj Hh (conj Hh' _)) (conj _ _))).
  - exact (proj1 (sanatize_rect_axes_independent
                    (mkRect 100 100 50 300) (mkRect 100 100 50 300)) Hv Hv').
  - exact (proj1 (proj2 (sanatize_rect_axes_independent
                    (mkRect 50 300 100 100) (mkRect 50 300 100 100))) Hh Hh').
  - exact (proj1 (proj1 (proj2 (proj2 (sanatize_rect_axes_independent
                    (mkRect 100 100 50 300) (mkRect 100 300 50 100))))
                    eq_refl eq_refl)).
  - exact (proj1 (proj2 (proj2 (proj2 (sanatize_rect_axes_independent
                    (mkRect 100 300 50 100) (mkRect 50 300 100 100))))
                    eq_refl eq_refl)).
Defined.

Lemma is_selecting_transitions_witness :
  let r0 := __init__ zero_rect (two_screens LINUX X11) 1 "#FF2E88"%string in
  let events := [left_press 100 100; move_to 300 50; escape;
                 left_press 10 10; move_to 40 40] in
  r0 = (Returned tt, window_of r0, trace_of r0)
  /\ (begun zero_rect edges_geometry (window_of r0) events
      = ended zero_rect edges_geometry (window_of r0) events + 1)%nat
  /\ (begun zero_rect edges_geometry (window_of r0) events
      <= ended zero_rect edges_geometry (window_of r0) events + 1)%nat.
Proof.
  cbv zeta.
  set (r0 := __init__ zero_rect (two_screens LINUX X11) 1 "#FF2E88"%string).
  set (events := [left_press 100 100; move_to 300 50; escape;
                  left_press 10 10; move_to 40 40]).
  assert (Hinit : r0 = (Returned tt, window_of r0, trace_of r0))
    by reflexivity.
  pose proof (is_selecting_transitions zero_rect edges_geometry
                (two_screens LINUX X11) 1 "#FF2E88"%string
                (window_of r0) (trace_of r0) events raw_mode Paint Hinit)
    as (Hbalance & Hbound & _).
  split; [exact Hinit |]. split; [exact Hbalance | exact Hbound].
Defined.

Lemma escape_while_selecting_emits_nothing_witness :
  is_selecting
    (run zero_rect edges_geometry idle_window
       [left_press 100 100; move_to 300 50]) = true
  /\ emitted zero_rect edges_geometry
       (run zero_rect edges_geometry idle_window
          [left_press 100 100; move_to 300 50])
       [escape] = []
  /\ is_selecting
       (run zero_rect edges_geometry idle_window
          [left_press 100 100; move_to 300 50; escape]) = false.
Proof.
  pose proof (escape_while_selecting_emits_nothing zero_rect edges_geometry
                idle_window [left_press 100 100; move_to 300 50] raw_mode
                eq_refl)
    as (_ & _ & Hidle & _ & Hnone).
  split; [reflexivity |]. split; [exact Hnone | exact Hidle].
Defined.

Lemma mouseMoveEvent_writes_bottom_right_only_witness :
  is_selecting idle_window = false
  /\ (bottom (selection_rect idle_window) <> 7
      \/ right (selection_rect idle_window) <> 5)
  /\ selection_rect (window_of (mouseMoveEvent (Qt.mkQPoint 5 7) idle_window))
     <> selection_rect idle_window.
Proof.
  assert (Hmoved : bottom (selection_rect idle_window) <> Qt.y (Qt.mkQPoint 5 7)
                   \/ right (selection_rect idle_window)
                      <> Qt.x (Qt.mkQPoint 5 7))
    by (left; cbn; lia).
  split; [reflexivity |]. split; [exact Hmoved |].
  exact (proj2 (proj2 (proj2 (proj2 (proj2
           (mouseMoveEvent_writes_bottom_right_only (Qt.mkQPoint 5 7)
              idle_window)))))
           eq_refl Hmoved).
Defined.

Lemma set_fullscreen_unsupported_platform_witness :
  (platform (system_info bsd_window) <> LINUX
   /\ platform (system_info bsd_window) <> MACOS
   /\ platform (system_info bsd_window) <> WINDOWS
   /\ set_fullscreen bsd_window =
      (Raised (NotImplementedError (OTHER_PLATFORM "freebsd"%string)),
       bsd_window, [Log (setting_fullscreen 0)]))
  /\ (platform (system_info idle_window) = LINUX
      /\ valid_index idle_window
      /\ outcome_of (set_fullscreen idle_window) = Returned tt)
  /\ (platform (system_info lost_window) = LINUX
      /\ py_getitem (screens (system_info lost_window))
                    (screen_idx lost_window) = None
      /\ outcome_of (set_fullscreen lost_window) = Raised IndexError).
Proof.
  assert (Hl : platform (system_info bsd_window) <> LINUX) by discriminate.
  assert (Hm : platform (system_info bsd_window) <> MACOS) by discriminate.
  assert (Hw : platform (system_info bsd_window) <> WINDOWS) by discriminate.
  assert (Hvalid : valid_index idle_window) by (eexists; reflexivity).
  refine (conj (conj Hl (conj Hm (conj Hw _)))
            (conj (conj eq_refl (conj Hvalid _))
                  (conj eq_refl (conj eq_refl _)))).
  - exact (proj1 (proj1 (set_fullscreen_unsupported_platform bsd_window)
                    Hl Hm Hw)).
  - exact (proj1 (proj2 (proj2 (set_fullscreen_unsupported_platform idle_window)
                    (or_introl eq_refl)))
                 Hvalid).
  - exact (proj2 (proj2 (proj2 (set_fullscreen_unsupported_platform lost_window)
                    (or_introl eq_refl)))
                 eq_refl).
Defined.

(** On Linux, a supported platform, with no screen to look up:
    [set_fullscreen] raises. *)
Lemma set_fullscreen_raises_on_supported_platform :
  platform (system_info screenless_window) = LINUX
  /\ set_fullscreen screenless_window
     = (Raised IndexError, screenless_window,
        Log (setting_fullscreen 0) :: linux_wayland_flags)
  /\ ~ (forall w : BaseWindow,
          platform (system_info w) = LINUX
          \/ platform (system_info w) = MACOS
          \/ platform (system_info w) = WINDOWS ->
          outcome_of (set_fullscreen w) = Returned tt).
Proof.
  split; [reflexivity |]. split; [reflexivity |].
  intros Hnever.
  specialize (Hnever screenless_window (or_introl eq_refl)).
  discriminate Hnever.
Defined.

Lemma set_fullscreen_linux_one_procedure_witness :
  platform (system_info dragging_window) = LINUX
  /\ outcome_of (set_fullscreen (with_display_manager X11 dragging_window))
     = outcome_of (set_fullscreen (with_display_manager WAYLAND dragging_window))
  /\ trace_of (set_fullscreen (with_display_manager X11 dragging_window))
     = trace_of (set_fullscreen (with_display_manager WAYLAND dragging_window)).
Proof.
  split; [reflexivity |].
  exact (proj2 (set_fullscreen_linux_one_procedure dragging_window X11
                  eq_refl)).
Defined.

(** * The further properties at concrete windows *)

Lemma sanatize_rect_idempotent_witness :
  (top (mkRect 100 100 50 300) <= bottom (mkRect 100 100 50 300)
   \/ bottom (mkRect 100 100 50 300) + 8 <= top (mkRect 100 100 50 300))
  /\ (left (mkRect 100 100 50 300) <= right (mkRect 100 100 50 300)
      \/ right (mkRect 100 100 50 300) + 8 <= left (mkRect 100 100 50 300))
  /\ _sanatize_rect (_sanatize_rect (mkRect 100 100 50 300))
     = _sanatize_rect (mkRect 100 100 50 300).
Proof.
  assert (Hv : top (mkRect 100 100 50 300) <= bottom (mkRect 100 100 50 300)
               \/ bottom (mkRect 100 100 50 300) + 8
                  <= top (mkRect 100 100 50 300))
    by (right; cbn; lia).
  assert (Hh : left (mkRect 100 100 50 300) <= right (mkRect 100 100 50 300)
               \/ right (mkRect 100 100 50 300) + 8
                  <= left (mkRect 100 100 50 300))
    by (left; cbn; lia).
  exact (conj Hv (conj Hh
           (sanatize_rect_idempotent (mkRect 100 100 50 300) Hv Hh))).
Defined.

Lemma sanatize_rect_narrow_involution_witness :
  bottom (mkRect 5 7 0 3) < top (mkRect 5 7 0 3) < bottom (mkRect 5 7 0 3) + 8
  /\ right (mkRect 5 7 0 3) < left (mkRect 5 7 0 3) < right (mkRect 5 7 0 3) + 8
  /\ _sanatize_rect (_sanatize_rect (mkRect 5 7 0 3)) = mkRect 5 7 0 3.
Proof.
  assert (Hv : bottom (mkRect 5 7 0 3) < top (mkRect 5 7 0 3)
               < bottom (mkRect 5 7 0 3) + 8) by (cbn; lia).
  assert (Hh : right (mkRect 5 7 0 3) < left (mkRect 5 7 0 3)
               < right (mkRect 5 7 0 3) + 8) by (cbn; lia).
  exact (conj Hv (conj Hh
           (sanatize_rect_narrow_involution (mkRect 5 7 0 3) Hv Hh))).
Defined.

Lemma drag_region_independent_of_direction_witness :
  py_getitem (screens (system_info dragging_window))
             (screen_idx dragging_window)
    = Some (mkScreenInfo 1 (Geometry.mk 1920 0 1920 1080))
  /\ pen_width dragging_window = 2
  /\ emitted zero_rect edges_geometry dragging_window
       [left_press 100 100; left_release 300 50]
     = [on_set_cursor_wait; on_minimize_windows;
        on_region_selected (mkRect 52 2022 98 2218) 1]
  /\ emitted zero_rect edges_geometry dragging_window
       [left_press 300 50; left_release 100 100]
     = [on_set_cursor_wait; on_minimize_windows;
        on_region_selected (mkRect 52 2022 98 2218) 1].
Proof.
  assert (Hx : 4 <= Z.abs (Qt.x (Qt.mkQPoint 100 100)
                           - Qt.x (Qt.mkQPoint 300 50))) by (cbn; lia).
  assert (Hy : 4 <= Z.abs (Qt.y (Qt.mkQPoint 100 100)
                           - Qt.y (Qt.mkQPoint 300 50))) by (cbn; lia).
  destruct (drag_region_independent_of_direction zero_rect edges_geometry
              dragging_window (mkScreenInfo 1 (Geometry.mk 1920 0 1920 1080))
              raw_mode raw_mode (Qt.mkQPoint 100 100) (Qt.mkQPoint 300 50)
              eq_refl eq_refl Hx Hy)
    as (Hforward & Hbackward & _).
  split; [reflexivity |]. split; [reflexivity |].
  split; [exact Hforward | exact Hbackward].
Defined.

Lemma click_emits_inverted_region_witness :
  py_getitem (screens (system_info idle_window)) (screen_idx idle_window)
    = Some (mkScreenInfo 0 (Geometry.mk 0 0 1920 1080))
  /\ pen_width idle_window = 2
  /\ emitted zero_rect edges_geometry idle_window
       [left_press 10 20; left_release 10 20]
     = [on_set_cursor_wait; on_minimize_windows;
        on_region_selected (mkRect 22 12 18 8) 0].
Proof.
  split; [reflexivity |]. split; [reflexivity |].
  exact (click_emits_inverted_region zero_rect edges_geometry idle_window
           (mkScreenInfo 0 (Geometry.mk 0 0 1920 1080)) raw_mode raw_mode
           (Qt.mkQPoint 10 20) eq_refl eq_refl).
Defined.

Lemma region_depends_on_press_and_release_only_witness :
  forallb is_move [move_to 150 150; move_to 20 30] = true
  /\ emitted zero_rect edges_geometry idle_window
       [left_press 100 100; move_to 150 150; move_to 20 30;
        left_release 300 50]
     = emitted zero_rect edges_geometry idle_window
         [left_press 100 100; left_release 300 50].
Proof.
  split; [reflexivity |].
  exact (proj1 (region_depends_on_press_and_release_only zero_rect
                  edges_geometry idle_window raw_mode raw_mode
                  (Qt.mkQPoint 100 100) (Qt.mkQPoint 300 50)
                  [move_to 150 150; move_to 20 30] eq_refl)).
Defined.

Lemma second_press_discards_first_witness :
  forallb is_move [move_to 1 1] = true
  /\ emitted zero_rect edges_geometry idle_window
       [left_press 100 100; move_to 1 1; left_press 10 10;
        left_release 300 50]
     = emitted zero_rect edges_geometry idle_window
         [left_press 10 10; left_release 300 50].
Proof.
  split; [reflexivity |].
  exact (proj1 (second_press_discards_first zero_rect edges_geometry
                  idle_window raw_mode raw_mode (Qt.mkQPoint 100 100)
                  (Qt.mkQPoint 10 10) [move_to 1 1] [left_release 300 50]
                  eq_refl)).
Defined.

Lemma release_after_escape_emits_nothing_witness :
  is_selecting dragging_window = true
  /\ forallb is_move [move_to 3 3] = true
  /\ emitted zero_rect edges_geometry dragging_window
       [escape; move_to 3 3; left_release 300 50] = [].
Proof.
  split; [reflexivity |]. split; [reflexivity |].
  exact (release_after_escape_emits_nothing zero_rect edges_geometry
           dragging_window raw_mode raw_mode Qt.LeftButton
           (Qt.mkQPoint 300 50) [move_to 3 3] eq_refl eq_refl).
Defined.

Lemma mouseReleaseEvent_index_error_witness :
  is_selecting lost_window = true
  /\ py_getitem (screens (system_info lost_window)) (screen_idx lost_window)
     = None
  /\ outcome_of (mouseReleaseEvent zero_rect Qt.LeftButton
                   (Qt.mkQPoint 300 50) lost_window)
     = Raised IndexError.
Proof.
  split; [reflexivity |]. split; [reflexivity |].
  exact (proj1 (mouseReleaseEvent_index_error zero_rect lost_window
                  (Qt.mkQPoint 300 50) eq_refl eq_refl)).
Defined.

Lemma never_positions_off_wayland_witness :
  display_manager (system_info dragging_window) <> WAYLAND
  /\ existsb is_gnome_move
       (trace_along zero_rect edges_geometry dragging_window
          [(raw_mode, Change Qt.ActivationChange); left_release 300 50])
     = false.
Proof.
  assert (Hdm : display_manager (system_info dragging_window) <> WAYLAND)
    by discriminate.
  split; [exact Hdm |].
  exact (proj1 (never_positions_off_wayland zero_rect edges_geometry
                  dragging_window
                  [(raw_mode, Change Qt.ActivationChange);
                   left_release 300 50]
                  Hdm)).
Defined.

Lemma mode_indicator_fixed_between_presses_witness :
  existsb is_left_press
    [move_to 1 1; escape; (mkWorld PARSE true, Paint); left_release 3 3]
    = false
  /\ mode_indicator
       (run zero_rect edges_geometry dragging_window
          [move_to 1 1; escape; (mkWorld PARSE true, Paint);
           left_release 3 3])
     = "☰"%string.
Proof.
  split; [reflexivity |].
  exact (mode_indicator_fixed_between_presses zero_rect edges_geometry
           dragging_window
           [move_to 1 1; escape; (mkWorld PARSE true, Paint);
            left_release 3 3]
           eq_refl).
Defined.

Lemma changeEvent_positions_once_witness :
  display_manager (system_info idle_window) = WAYLAND
  /\ isActiveWindow raw_mode = true
  /\ is_positioned idle_window = false
  /\ py_getitem (screens (system_info idle_window)) (screen_idx idle_window)
     = Some (mkScreenInfo 0 (Geometry.mk 0 0 1920 1080))
  /\ changeEvent raw_mode Qt.ActivationChange
       (set_is_positioned true idle_window)
     = (Returned tt, set_is_positioned true idle_window,
        [Log (printed_event_type Qt.ActivationChange);
         Call (Qt.super_changeEvent Qt.ActivationChange)]).
Proof.
  repeat (split; [reflexivity |]).
  exact (proj2 (changeEvent_positions_once idle_window raw_mode raw_mode
                  (mkScreenInfo 0 (Geometry.mk 0 0 1920 1080))
                  eq_refl eq_refl eq_refl eq_refl)).
Defined.

Lemma changeEvent_index_error_witness :
  display_manager (system_info lost_window) = WAYLAND
  /\ isActiveWindow raw_mode = true
  /\ is_positioned lost_window = false
  /\ py_getitem (screens (system_info lost_window)) (screen_idx lost_window)
     = None
  /\ changeEvent raw_mode Qt.ActivationChange lost_window
     = (Raised IndexError, lost_window,
        [Log (printed_event_type Qt.ActivationChange);
         Log (positioning_window 2);
         Call Qt.setFocus]).
Proof.
  repeat (split; [reflexivity |]).
  exact (changeEvent_index_error lost_window raw_mode
           eq_refl eq_refl eq_refl eq_refl).
Defined.

Lemma set_fullscreen_index_error_witness :
  supported (platform (system_info lost_window)) = true
  /\ py_getitem (screens (system_info lost_window)) (screen_idx lost_window)
     = None
  /\ outcome_of (set_fullscreen lost_window) = Raised IndexError
  /\ trace_of (set_fullscreen lost_window)
     = Log (setting_fullscreen 2) :: linux_wayland_flags.
Proof.
  split; [reflexivity |]. split; [reflexivity |].
  pose proof (set_fullscreen_index_error lost_window eq_refl eq_refl)
    as (Houtcome & _ & Htrace & _).
  split; [exact Houtcome | exact Htrace].
Defined.

Lemma set_fullscreen_places_on_screen_witness :
  supported (platform (system_info dragging_window)) = true
  /\ py_getitem (screens (system_info dragging_window))
                (screen_idx dragging_window)
     = Some (mkScreenInfo 1 (Geometry.mk 1920 0 1920 1080))
  /\ existsb (sets_flag Qt.FramelessWindowHint)
       (trace_of (set_fullscreen dragging_window)) = true.
Proof.
  split; [reflexivity |]. split; [reflexivity |].
  exact (proj1 (set_fullscreen_places_on_screen dragging_window
                  (mkScreenInfo 1 (Geometry.mk 1920 0 1920 1080))
                  eq_refl eq_refl)).
Defined.

Lemma completed_selection_restores_window_witness :
  py_getitem (screens (system_info idle_window)) (screen_idx idle_window)
    = Some (mkScreenInfo 0 (Geometry.mk 0 0 1920 1080))
  /\ forallb is_move [move_to 150 150] = true
  /\ run zero_rect edges_geometry idle_window
       [left_press 100 100; move_to 150 150; left_release 300 50]
     = set_mode_indicator "☰"%string idle_window.
Proof.
  split; [reflexivity |]. split; [reflexivity |].
  exact (completed_selection_restores_window zero_rect edges_geometry
           idle_window (mkScreenInfo 0 (Geometry.mk 0 0 1920 1080))
           raw_mode raw_mode (Qt.mkQPoint 100 100) (Qt.mkQPoint 300 50)
           [move_to 150 150] eq_refl eq_refl).
Defined.
